(** * Student management and attendance system: roster store, relay server
      and synchronisation client

    A shallow embedding of
    - [src/data-manager.js] (class [DataManager], the client-side store),
    - [src/config.js] ([CONFIG] and [CONFIG.validateStudent]),
    - the relay server (socket handlers [add-student], [mark-attendance],
      [qr-scan] and the [POST /api/import] endpoint),
    - the synchronisation client ([SyncClient.sendQRScan]),
    followed by the properties of the specification that concern them.

    JavaScript objects holding primitive fields are finite maps from
    property names to values; arrays are lists; the mutable singleton
    object is an explicit state that every operation takes and returns,
    also when it throws.  Clock readings and the random log identifier are
    supplied by an environment record. *)

From Stdlib Require Import ZArith Lia Bool Ascii String DecimalString
  DecimalPos.
From stdpp Require Import base numbers option list strings gmap.

Local Open Scope string_scope.
Local Open Scope list_scope.
Local Open Scope Z_scope.

(* ===================================================================== *)
(** ** JavaScript values and the coercions the program relies on          *)
(* ===================================================================== *)

Module JS.

(** Primitive values.  Numbers are the integers (the program's session
    numbers, quiz scores and numeric identifiers) together with [NaN];
    fractional numbers and infinities are outside the model. *)
Inductive value : Type :=
| VUndef
| VNull
| VBool (b : bool)
| VNum (z : Z)
| VNaN
| VStr (s : string).

#[export] Instance value_eq_dec : EqDecision value.
Proof. solve_decision. Defined.

(** ToBoolean *)
Definition truthy (v : value) : bool :=
  match v with
  | VUndef | VNull | VNaN => false
  | VBool b => b
  | VNum z => negb (z =? 0)
  | VStr s => negb (String.eqb s EmptyString)
  end.

(** [a || b] *)
Definition js_or (a b : value) : value := if truthy a then a else b.

(** *** Characters and digit strings *)

(** White space of the ASCII range (TAB, LF, VT, FF, CR, SP). *)
Definition is_space (c : ascii) : bool :=
  let n := nat_of_ascii c in
  ((9 <=? n)%nat && (n <=? 13)%nat) || (n =? 32)%nat.

(** Numeric value of a character read as a digit of any radix up to 16. *)
Definition digit_val (c : ascii) : option N :=
  let n := N_of_ascii c in
  if ((48 <=? n) && (n <=? 57))%N then Some (n - 48)%N
  else if ((97 <=? n) && (n <=? 102))%N then Some (n - 87)%N
  else if ((65 <=? n) && (n <=? 70))%N then Some (n - 55)%N
  else None.

Definition digit_in (radix : N) (c : ascii) : option N :=
  match digit_val c with
  | Some d => if (d <? radix)%N then Some d else None
  | None => None
  end.

Definition is_digit (c : ascii) : bool :=
  match digit_in 10 c with Some _ => true | None => false end.

(** Longest prefix of radix-[radix] digits, and what follows it. *)
Fixpoint split_digits (radix : N) (s : string) : list N * string :=
  match s with
  | EmptyString => ([], EmptyString)
  | String c rest =>
      match digit_in radix c with
      | Some d => let '(ds, tl) := split_digits radix rest in (d :: ds, tl)
      | None => ([], s)
      end
  end.

Definition digits_to_N (radix : N) (ds : list N) : N :=
  fold_left (fun acc d => (acc * radix + d)%N) ds 0%N.

Fixpoint trim_left (s : string) : string :=
  match s with
  | String c rest => if is_space c then trim_left rest else s
  | EmptyString => EmptyString
  end.

Fixpoint rev_string (acc s : string) : string :=
  match s with
  | EmptyString => acc
  | String c rest => rev_string (String c acc) rest
  end.

Definition trim_right (s : string) : string :=
  rev_string EmptyString (trim_left (rev_string EmptyString s)).

(** [String.prototype.trim] *)
Definition trim (s : string) : string := trim_right (trim_left s).

(** An optional prefix [0x]/[0X] (resp. o, b): the rest of the string. *)
Definition strip_radix_prefix (lower upper : ascii) (s : string)
  : option string :=
  match s with
  | String "0" (String c rest) =>
      if (Ascii.eqb c lower || Ascii.eqb c upper)%bool then Some rest
      else None
  | _ => None
  end.

Definition all_digits (radix : N) (s : string) : option N :=
  match split_digits radix s with
  | (d :: ds, EmptyString) => Some (digits_to_N radix (d :: ds))
  | _ => None
  end.

(** StringToNumber, on strings whose numeric literal is an integer
    written without fraction or exponent; [None] stands for [NaN]
    (and for the literals left outside the model: fractions, exponents,
    [Infinity]). *)
Definition str_to_number (s : string) : option Z :=
  let t := trim s in
  match t with
  | EmptyString => Some 0
  | String c rest =>
      match strip_radix_prefix "x" "X" t with
      | Some h => Z.of_N <$> all_digits 16 h
      | None =>
      match strip_radix_prefix "o" "O" t with
      | Some o => Z.of_N <$> all_digits 8 o
      | None =>
      match strip_radix_prefix "b" "B" t with
      | Some b => Z.of_N <$> all_digits 2 b
      | None =>
          if Ascii.eqb c "-" then (fun n => - Z.of_N n) <$> all_digits 10 rest
          else if Ascii.eqb c "+" then Z.of_N <$> all_digits 10 rest
          else Z.of_N <$> all_digits 10 t
      end end end
  end.

(** ToNumber; [None] is [NaN]. *)
Definition to_number (v : value) : option Z :=
  match v with
  | VUndef | VNaN => None
  | VNull => Some 0
  | VBool b => Some (if b then 1 else 0)
  | VNum z => Some z
  | VStr s => str_to_number s
  end.

Definition of_number (o : option Z) : value :=
  match o with Some z => VNum z | None => VNaN end.

(** Decimal numeral of an integer. *)
Definition Z_to_string (z : Z) : string :=
  NilZero.string_of_int (Z.to_int z).

(** ToString *)
Definition to_string (v : value) : string :=
  match v with
  | VUndef => "undefined"
  | VNull => "null"
  | VBool true => "true"
  | VBool false => "false"
  | VNum z => Z_to_string z
  | VNaN => "NaN"
  | VStr s => s
  end.

(** [parseInt(string)] with the default radix: leading white space, an
    optional sign, an optional [0x] prefix, then the longest run of
    digits; [NaN] when that run is empty. *)
Definition parse_int_string (s : string) : option Z :=
  let t := trim_left s in
  let '(neg, u) :=
    match t with
    | String c rest =>
        if Ascii.eqb c "-" then (true, rest)
        else if Ascii.eqb c "+" then (false, rest)
        else (false, t)
    | EmptyString => (false, t)
    end in
  let '(radix, w) :=
    match strip_radix_prefix "x" "X" u with
    | Some h => (16%N, h)
    | None => (10%N, u)
    end in
  match split_digits radix w with
  | ([], _) => None
  | (ds, _) =>
      let n := Z.of_N (digits_to_N radix ds) in
      Some (if neg : bool then - n else n)
  end.

(** [parseInt(v)]: the argument is first converted with ToString. *)
Definition parseInt (v : value) : value :=
  of_number (parse_int_string (to_string v)).

(** [a === b] *)
Definition strict_eq (a b : value) : bool :=
  match a, b with
  | VUndef, VUndef | VNull, VNull => true
  | VBool x, VBool y => Bool.eqb x y
  | VNum x, VNum y => x =? y
  | VStr x, VStr y => String.eqb x y
  | _, _ => false
  end.

(** [a == b]: values of one type compare strictly, [null] and
    [undefined] equal each other and nothing else, and a number, a
    boolean and a string are compared after ToNumber. *)
Definition loose_eq (a b : value) : bool :=
  match a, b with
  | (VUndef | VNull), (VUndef | VNull) => true
  | (VUndef | VNull), _ | _, (VUndef | VNull) => false
  | VStr x, VStr y => String.eqb x y
  | _, _ =>
      match to_number a, to_number b with
      | Some x, Some y => x =? y
      | _, _ => false
      end
  end.

(** [a < b] and [a > b] where one side is a number literal. *)
Definition lt_num (a : value) (k : Z) : bool :=
  match to_number a with Some x => x <? k | None => false end.

Definition gt_num (a : value) (k : Z) : bool :=
  match to_number a with Some x => k <? x | None => false end.

(** *** String helpers of the standard library of the language *)

Fixpoint repeat_char (c : ascii) (n : nat) : string :=
  match n with
  | O => EmptyString
  | S k => String c (repeat_char c k)
  end.

(** [s.padStart(k, '0')] *)
Definition padStart0 (k : nat) (s : string) : string :=
  repeat_char "0" (k - String.length s)%nat +:+ s.

(** [s.includes(t)] *)
Fixpoint includes (t s : string) : bool :=
  String.prefix t s ||
  match s with
  | EmptyString => false
  | String _ rest => includes t rest
  end.

(** The match of [/(\d+)$/]: the longest run of digits that ends the
    string ([None] when the string does not end with a digit). *)
Definition trailing_digits (s : string) : option string :=
  let r := rev_string EmptyString s in
  match split_digits 10 r with
  | ([], _) => None
  | (ds, _) =>
      Some (rev_string EmptyString (substring 0 (List.length ds) r))
  end.

Fixpoint forallb_string (p : ascii -> bool) (s : string) : bool :=
  match s with
  | EmptyString => true
  | String c rest => p c && forallb_string p rest
  end.

(** [/^\d{7}$/.test(s)] *)
Definition is_seven_digits (s : string) : bool :=
  (String.length s =? 7)%nat && forallb_string is_digit s.

(** [xs.join(', ')] *)
Fixpoint join_comma (xs : list string) : string :=
  match xs with
  | [] => EmptyString
  | [x] => x
  | x :: rest => x +:+ ", " +:+ join_comma rest
  end.

(** [String.prototype.toLowerCase] on the ASCII range. *)
Definition lower_char (c : ascii) : ascii :=
  let n := nat_of_ascii c in
  if ((65 <=? n)%nat && (n <=? 90)%nat)%bool then ascii_of_nat (n + 32)
  else c.

Fixpoint toLowerCase (s : string) : string :=
  match s with
  | EmptyString => EmptyString
  | String c rest => String (lower_char c) (toLowerCase rest)
  end.

(** *** The range of the embedding

    A string of the model holds the bytes of the UTF-8 form of the text.
    White space ([is_space], [trim], the class [\s]) and letter case
    ([toLowerCase]) are those of the ASCII range, where one byte is one
    UTF-16 code unit: what depends on them is stated for ASCII text.
    [str_to_number] is the engine's StringToNumber on ASCII text except
    on the literals it leaves out ([Infinity], a fraction, an exponent)
    and beyond 2^53, where the engine rounds: [converts_exactly] is the
    test for the values on which [to_number] is ToNumber. *)

Definition ascii_char (c : ascii) : bool := (nat_of_ascii c <? 128)%nat.

Definition ascii_text (s : string) : bool := forallb_string ascii_char s.

Definition ascii_value (v : value) : bool :=
  match v with
  | VStr s => ascii_text s
  | _ => true
  end.

(** [s.length], the number of UTF-16 code units: one for the byte that
    starts a character of one, two or three bytes, two for the byte that
    starts a character of four bytes (a surrogate pair), none for a
    continuation byte. *)
Definition code_units_of (c : ascii) : nat :=
  let n := nat_of_ascii c in
  if (n <? 128)%nat then 1%nat
  else if (n <? 192)%nat then 0%nat
  else if (n <? 240)%nat then 1%nat
  else 2%nat.

Fixpoint code_units (s : string) : nat :=
  match s with
  | EmptyString => 0%nat
  | String c rest => (code_units_of c + code_units rest)%nat
  end.

(** ExponentPart up to the end of the string: [e] or [E], an optional
    sign, one digit at least. *)
Definition exponent_part (s : string) : bool :=
  match s with
  | String c rest =>
      (Ascii.eqb c "e" || Ascii.eqb c "E") &&
      let digits :=
        match rest with
        | String sign more =>
            if Ascii.eqb sign "+" || Ascii.eqb sign "-" then more else rest
        | EmptyString => rest
        end in
      negb (String.eqb digits EmptyString) && forallb_string is_digit digits
  | EmptyString => false
  end.

(** The StrDecimalLiterals that are not a plain run of digits: after an
    optional sign, [Infinity], or digits with a fraction (a digit on one
    side of the dot at least) and an optional exponent, or digits with an
    exponent. *)
Definition decimal_literal (t : string) : bool :=
  let u :=
    match t with
    | String c rest =>
        if Ascii.eqb c "+" || Ascii.eqb c "-" then rest else t
    | EmptyString => t
    end in
  String.eqb u "Infinity" ||
  let '(ds1, r1) := split_digits 10 u in
  match r1 with
  | String c r2 =>
      if Ascii.eqb c "." then
        let '(ds2, r3) := split_digits 10 r2 in
        negb (Nat.eqb (List.length ds1) 0 && Nat.eqb (List.length ds2) 0)
        && (String.eqb r3 EmptyString || exponent_part r3)
      else negb (Nat.eqb (List.length ds1) 0) && exponent_part r1
  | EmptyString => false
  end.

Definition converts_exactly (v : value) : bool :=
  match v with
  | VStr s =>
      ascii_text s && negb (decimal_literal (trim s))
      && match str_to_number s with
         | Some z => Z.abs z <=? 2 ^ 53
         | None => true
         end
  | VNum z => Z.abs z <=? 2 ^ 53
  | _ => true
  end.

End JS.
Export JS.

(** Objects with primitive members. *)
Abbreviation obj := (gmap string value).

(** Property read: a missing property reads as [undefined]. *)
Definition prop (o : obj) (k : string) : value := default VUndef (o !! k).

(** Object literal from a list of members, later members winning, as in
    [{...a, k: v}]. *)
Definition literal (members : list (string * value)) : obj :=
  fold_left (fun o kv => <[kv.1 := kv.2]> o) members ∅.

(** The first element satisfying [p] together with its index: what
    [arr.findIndex(p)] followed by [arr[index]] yields; [None] stands for
    the index [-1]. *)
Fixpoint find_indexed {A : Type} (p : A -> bool) (l : list A)
  : option (nat * A) :=
  match l with
  | [] => None
  | x :: rest =>
      if p x then Some (0%nat, x)
      else (fun ix => (S ix.1, ix.2)) <$> find_indexed p rest
  end.

(** [arr.findIndex(p)] *)
Definition findIndex {A : Type} (p : A -> bool) (l : list A) : option nat :=
  fst <$> find_indexed p l.

(** A member that should hold an array: missing ([undefined] or [null]),
    some other value, or an array. *)
Inductive collection (A : Type) : Type :=
| Absent
| NonArray
| Array (l : list A).
Arguments Absent {A}.
Arguments NonArray {A}.
Arguments Array {A} l.

(** [arr.splice(i, 0, x)] *)
Definition splice_in {A : Type} (i : nat) (x : A) (l : list A) : list A :=
  take i l ++ x :: drop i l.

(** Outcome of a method call: a returned value or a thrown [Error] with
    its message.  The state after the call is returned next to it in both
    cases. *)
Inductive result (A : Type) : Type :=
| Ok (a : A)
| Throw (msg : string).
Arguments Ok {A} a.
Arguments Throw {A} msg.

(** The clock and the random source, read once per call. *)
Record env : Type := {
  now_iso : string;     (* new Date().toISOString() *)
  today : string;       (* new Date().toLocaleDateString('en-US') *)
  now_time : string;    (* new Date().toLocaleTimeString('en-US') *)
  fresh_id : value      (* Date.now() + Math.random() * 1000 *)
}.

(* ===================================================================== *)
(** ** config.js                                                          *)
(* ===================================================================== *)

Module CONFIG.

Definition maxSessions : Z := 8.
Definition homework_defaultOption : value := VStr "complete".
Definition quiz_defaultScore : value := VNum 0.

(** [/^[\+\-\s\(\)\d]+$/] *)
Definition phone_char (c : ascii) : bool :=
  Ascii.eqb c "+" || Ascii.eqb c "-" || is_space c
  || Ascii.eqb c "(" || Ascii.eqb c ")" || is_digit c.

Definition phone_pattern (s : string) : bool :=
  negb (String.eqb s EmptyString) && forallb_string phone_char s.

(** [/^[^\s@]+@[^\s@]+\.[^\s@]+$/]: no white space, exactly one [@]
    with something before it, and after it a dot that is neither the
    first nor the last character. *)
Definition plain_char (c : ascii) : bool :=
  negb (is_space c) && negb (Ascii.eqb c "@").

Fixpoint inner_dot (s : string) : bool :=
  match s with
  | String c ((String _ _) as rest) =>
      Ascii.eqb c "." || inner_dot rest
  | _ => false
  end.

Definition domain_part (s : string) : bool :=
  forallb_string plain_char s &&
  match s with
  | String _ rest => inner_dot rest
  | EmptyString => false
  end.

Fixpoint email_from (seen_local : bool) (s : string) : bool :=
  match s with
  | EmptyString => false
  | String c rest =>
      if Ascii.eqb c "@" then seen_local && domain_part rest
      else plain_char c && email_from true rest
  end.

Definition email_pattern (s : string) : bool := email_from false s.

(** One entry of [CONFIG.validation.student]. *)
Record rules : Type := {
  required : bool;
  minLength : option nat;
  pattern : option (string -> bool)
}.

Definition validation_student : list (string * rules) :=
  [ ("id", {| required := true; minLength := None; pattern := None |});
    ("fullName",
      {| required := true; minLength := Some 2%nat; pattern := None |});
    ("phoneNumber",
      {| required := true; minLength := None;
         pattern := Some phone_pattern |});
    ("email",
      {| required := false; minLength := None;
         pattern := Some email_pattern |}) ].

(** [value.length < n]: only strings have a length, counted in code
    units, and a comparison with [undefined] is false. *)
Definition shorter_than (v : value) (n : nat) : bool :=
  match v with
  | VStr s => (code_units s <? n)%nat
  | _ => false
  end.

(** The messages one field contributes. *)
Definition field_errors (student : obj) (field : string) (r : rules)
  : list string :=
  let v := prop student field in
  if required r
     && (negb (truthy v) || String.eqb (trim (to_string v)) EmptyString)
  then [field +:+ " is required"]
  else
    (match minLength r with
     | Some n =>
         if truthy v && shorter_than v n
         then [field +:+ " must be at least "
                 +:+ Z_to_string (Z.of_nat n) +:+ " characters long"]
         else []
     | None => []
     end) ++
    (match pattern r with
     | Some test =>
         if truthy v && negb (test (to_string v))
         then [field +:+ " format is invalid"]
         else []
     | None => []
     end).

Record validation : Type := { isValid : bool; errors : list string }.

Definition validateStudent (student : obj) : validation :=
  let errs :=
    flat_map (fun fr => field_errors student fr.1 fr.2)
             validation_student in
  {| isValid := (List.length errs =? 0)%nat; errors := errs |}.

(** The fields [validateStudent] reads hold ASCII text (or no text),
    on which [trim] and the patterns are the engine's. *)
Definition ascii_fields (student : obj) : bool :=
  forallb (fun fr => ascii_value (prop student fr.1)) validation_student.

Definition sessionNames : list string :=
  ["Session 1"; "Session 2"; "Session 3"; "Session 4";
   "Session 5"; "Session 6"; "Session 7"; "Session 8"].

Definition searchFields : list string :=
  ["fullName"; "id"; "phoneNumber"; "parentPhone"].

(** [this.sessions.sessionNames[sessionNumber - 1] || `Session ${n}`],
    for an integer session number: an index below zero or past the end
    reads [undefined]. *)
Definition getSessionName (sessionNumber : Z) : string :=
  let fallback := "Session " +:+ Z_to_string sessionNumber in
  if sessionNumber - 1 <? 0 then fallback
  else
    match sessionNames !! Z.to_nat (sessionNumber - 1) with
    | Some name => if String.eqb name EmptyString then fallback else name
    | None => fallback
    end.

End CONFIG.

(* ===================================================================== *)
(** ** The record model                                                   *)
(* ===================================================================== *)

(** A session slot is an object with the members [attendance],
    [homework], [quiz] and [date]; a record's [sessions] member maps
    property names (the decimal session numbers) to slots. *)
Record student_record : Type := {
  rec_id : value;
  rec_fullName : value;
  rec_parentPhone : value;
  rec_sessions : gmap string obj;
  rec_createdAt : value;
  rec_updatedAt : value
}.

Record log_entry : Type := {
  log_id : value;
  log_date : value;
  log_time : value;
  log_studentId : value;
  log_studentName : value;
  log_session : value;
  log_attendance : value;
  log_homework : value;
  log_quiz : value;
  log_createdAt : value;
  log_updatedAt : value
}.

(** An element of [deletedStudents].  The entries written by
    [deleteStudentTemporary] have the members [student], [record], [logs],
    [deletedAt] and [deletedBy]; imported data may hold a student object
    directly, or a mixture.  [it_members] are the primitive members of the
    element itself, [it_student] its [student] member when it is an
    object, [it_record] its [record] member when it is one, and [it_logs]
    its [logs] member (empty when missing). *)
Record deleted_item : Type := {
  it_members : obj;
  it_student : option obj;
  it_record : option student_record;
  it_logs : list log_entry
}.

Definition empty_session : obj :=
  literal [("attendance", VNull); ("homework", VNull);
           ("quiz", VNull); ("date", VNull)].

(** [for (let i = 1; i <= n; i++) sessions[i] = {...}] *)
Definition init_sessions (n : Z) : gmap string obj :=
  fold_left
    (fun (m : gmap string obj) (i : nat) =>
       <[Z_to_string (Z.of_nat i) := empty_session]> m)
    (seq 1 (Z.to_nat n)) ∅.

(** Key of a log entry as the store compares it: [studentId] and
    [session] loosely, [date] strictly. *)
Definition same_key_loose (sid date sess : value) (l : log_entry) : bool :=
  loose_eq (log_studentId l) sid
  && strict_eq (log_date l) date
  && loose_eq (log_session l) sess.

(** The same key as the server compares it: all three strictly. *)
Definition same_key_strict (sid date sess : value) (l : log_entry) : bool :=
  strict_eq (log_studentId l) sid
  && strict_eq (log_date l) date
  && strict_eq (log_session l) sess.

(* ===================================================================== *)
(** ** data-manager.js: class DataManager                                 *)
(* ===================================================================== *)

Module DataManager.

(** The four arrays of the store.  Where the class declares a method
    twice ([addStudent], [importData]) the later declaration is the one
    in force, and it is the one embedded here. *)
Record t : Type := {
  students : list obj;
  studentRecords : list student_record;
  attendanceLogs : list log_entry;
  deletedStudents : list deleted_item
}.

Definition constructor : t :=
  {| students := []; studentRecords := [];
     attendanceLogs := []; deletedStudents := [] |}.

Definition with_students (st : t) (l : list obj) : t :=
  {| students := l; studentRecords := studentRecords st;
     attendanceLogs := attendanceLogs st;
     deletedStudents := deletedStudents st |}.

Definition with_records (st : t) (l : list student_record) : t :=
  {| students := students st; studentRecords := l;
     attendanceLogs := attendanceLogs st;
     deletedStudents := deletedStudents st |}.

Definition with_logs (st : t) (l : list log_entry) : t :=
  {| students := students st; studentRecords := studentRecords st;
     attendanceLogs := l; deletedStudents := deletedStudents st |}.

Definition with_deleted (st : t) (l : list deleted_item) : t :=
  {| students := students st; studentRecords := studentRecords st;
     attendanceLogs := attendanceLogs st; deletedStudents := l |}.

Definition id_is (id : value) (s : obj) : bool :=
  loose_eq (prop s "id") id.

Definition record_id_is (id : value) (r : student_record) : bool :=
  loose_eq (rec_id r) id.

Definition log_student_is (id : value) (l : log_entry) : bool :=
  loose_eq (log_studentId l) id.

Definition getStudentById (st : t) (id : value) : option obj :=
  find (id_is id) (students st).

Definition getStudentRecord (st : t) (studentId : value)
  : option student_record :=
  find (record_id_is studentId) (studentRecords st).

(** *** Student records *)

Definition new_record (e : env) (student : obj) : student_record :=
  {| rec_id := prop student "id";
     rec_fullName := prop student "fullName";
     rec_parentPhone := prop student "parentPhone";
     rec_sessions := init_sessions CONFIG.maxSessions;
     rec_createdAt := VStr (now_iso e);
     rec_updatedAt := VStr (now_iso e) |}.

(** Returns the record together with its index in [studentRecords]
    (the method returns the record object, which the caller then
    mutates in place), and the state. *)
Definition createStudentRecord (e : env) (st : t) (student : obj)
  : (nat * student_record) * t :=
  match find_indexed (record_id_is (prop student "id"))
                     (studentRecords st) with
  | Some existingRecord => (existingRecord, st)
  | None =>
      let record := new_record e student in
      ((List.length (studentRecords st), record),
       with_records st (studentRecords st ++ [record]))
  end.

(** [{...old, ...sessionData, date: sessionData.date || today}] *)
Definition merge_session (e : env) (old sessionData : obj) : obj :=
  <["date" := js_or (prop sessionData "date") (VStr (today e))]>
    (sessionData ∪ old).

Definition write_session (e : env) (key : string) (sessionData : obj)
    (r : student_record) : student_record :=
  {| rec_id := rec_id r;
     rec_fullName := rec_fullName r;
     rec_parentPhone := rec_parentPhone r;
     rec_sessions :=
       <[key := merge_session e (default ∅ (rec_sessions r !! key))
                              sessionData]> (rec_sessions r);
     rec_createdAt := rec_createdAt r;
     rec_updatedAt := VStr (now_iso e) |}.

Definition updateStudentSession (e : env) (st : t)
    (studentId sessionNumber : value) (sessionData : obj)
  : result student_record * t :=
  let located : result (nat * student_record) * t :=
    match find_indexed (record_id_is studentId) (studentRecords st) with
    | Some studentRecord => (Ok studentRecord, st)
    | None =>
        match getStudentById st studentId with
        | None =>
            (Throw ("Student with ID " +:+ to_string studentId
                      +:+ " not found"), st)
        | Some student =>
            let '(studentRecord, st1) :=
              createStudentRecord e st student in
            (Ok studentRecord, st1)
        end
    end in
  match located with
  | (Throw msg, st1) => (Throw msg, st1)
  | (Ok (i, studentRecord), st1) =>
      if lt_num sessionNumber 1
         || gt_num sessionNumber CONFIG.maxSessions
      then
        (Throw ("Session number must be between 1 and "
                  +:+ Z_to_string CONFIG.maxSessions), st1)
      else
        let r' := write_session e (to_string sessionNumber)
                                sessionData studentRecord in
        (Ok r', with_records st1 (<[i := r']> (studentRecords st1)))
  end.

(** *** Attendance logs *)

Definition first_missing (logData : obj) (fields : list string)
  : option string :=
  find (fun f => negb (truthy (prop logData f))) fields.

Definition addAttendanceLog (e : env) (st : t) (logData : obj)
  : result log_entry * t :=
  match first_missing logData
          ["studentId"; "studentName"; "session"; "attendance"] with
  | Some field =>
      (Throw (field +:+ " is required for attendance log"), st)
  | None =>
      let day := js_or (prop logData "date") (VStr (today e)) in
      let existingLog :=
        find_indexed (same_key_loose (prop logData "studentId") day
                                     (prop logData "session"))
                     (attendanceLogs st) in
      let logEntry (id createdAt : value) : log_entry :=
        {| log_id := id;
           log_date := day;
           log_time := js_or (prop logData "time") (VStr (now_time e));
           log_studentId := prop logData "studentId";
           log_studentName := prop logData "studentName";
           log_session := parseInt (prop logData "session");
           log_attendance := prop logData "attendance";
           log_homework :=
             js_or (prop logData "homework") CONFIG.homework_defaultOption;
           log_quiz :=
             js_or (parseInt (prop logData "quiz")) CONFIG.quiz_defaultScore;
           log_createdAt := createdAt;
           log_updatedAt := VStr (now_iso e) |} in
      match existingLog with
      | Some (i, old) =>
          let entry := logEntry (log_id old) (log_createdAt old) in
          (Ok entry, with_logs st (<[i := entry]> (attendanceLogs st)))
      | None =>
          let entry :=
            logEntry (js_or (prop logData "id") (fresh_id e))
                     (VStr (now_iso e)) in
          (Ok entry, with_logs st (entry :: attendanceLogs st))
      end
  end.

(** *** Adding a student *)

Definition max_list (x : Z) (xs : list Z) : Z := fold_left Z.max xs x.

(** [parseInt] of the trailing digits of [String(student.id)], [0] when
    there are none. *)
Definition numeric_suffix (student : obj) : Z :=
  match trailing_digits (to_string (prop student "id")) with
  | Some digits => default 0 (parse_int_string digits)
  | None => 0
  end.

Definition format_like (lastStudentId : string) (nextId : Z) : string :=
  if is_seven_digits lastStudentId then padStart0 7 (Z_to_string nextId)
  else if includes "2024" lastStudentId
       then "2024" +:+ padStart0 3 (Z_to_string nextId)
       else padStart0 4 (Z_to_string nextId).

(** [parseInt], [Math.max] and [+ 1] are taken on the integers: they are
    the engine's as long as every numeric suffix is below 2^53, which the
    properties of the suggestion assume. *)
Definition generateNextAvailableId (st : t) : string :=
  match last (students st) with
  | None => "2024001"
  | Some lastStudent =>
      match List.filter (fun n => 0 <? n)
                        (numeric_suffix <$> students st) with
      | [] => "2024001"
      | n :: ns =>
          let maxId := max_list n ns in
          let nextId := maxId + 1 in
          format_like (to_string (prop lastStudent "id")) nextId
      end
  end.

Definition new_student (e : env) (studentData : obj) : obj :=
  literal
    [ ("id", prop studentData "id");
      ("fullName", prop studentData "fullName");
      ("phoneNumber", prop studentData "phoneNumber");
      ("email", js_or (prop studentData "email") (VStr EmptyString));
      ("contactMethod",
         js_or (prop studentData "contactMethod") (VStr "phone"));
      ("parentPhone", js_or (prop studentData "parentPhone") (VStr EmptyString));
      ("gradeLevel", js_or (prop studentData "gradeLevel") (VStr EmptyString));
      ("center", js_or (prop studentData "center") (VStr EmptyString));
      ("school", js_or (prop studentData "school") (VStr EmptyString));
      ("createdAt", VStr (now_iso e));
      ("updatedAt", VStr (now_iso e)) ].

Definition double_quote : ascii := ascii_of_nat 34.

Definition duplicate_message (studentData existingStudent : obj)
    (nextId : string) : string :=
  "DUPLICATE_ID|Student with ID " +:+ String double_quote
    (to_string (prop studentData "id")) +:+ String double_quote
    (" already exists (" +:+ to_string (prop existingStudent "fullName")
     +:+ "). Suggested next ID: " +:+ nextId).

Definition addStudent (e : env) (st : t) (studentData : obj)
  : result obj * t :=
  let v := CONFIG.validateStudent studentData in
  if negb (CONFIG.isValid v) then
    (Throw ("Invalid student data: " +:+ join_comma (CONFIG.errors v)), st)
  else
    match getStudentById st (prop studentData "id") with
    | Some existingStudent =>
        let nextId := generateNextAvailableId st in
        (Throw (duplicate_message studentData existingStudent nextId), st)
    | None =>
        let student := new_student e studentData in
        let st1 := with_students st (students st ++ [student]) in
        let '(_, st2) := createStudentRecord e st1 student in
        (Ok student, st2)
    end.

(** *** Soft deletion and restoration *)

Definition tombstone (e : env) (student : obj)
    (record : option student_record) (logs : list log_entry)
  : deleted_item :=
  {| it_members :=
       literal [("deletedAt", VStr (now_iso e));
                ("deletedBy", VStr "system")];
     it_student := Some student;
     it_record := record;
     it_logs := logs |}.

Definition deleteStudentTemporary (e : env) (st : t) (id : value)
  : result deleted_item * t :=
  match find_indexed (id_is id) (students st) with
  | None =>
      (Throw ("Student with ID " +:+ to_string id +:+ " not found"), st)
  | Some (studentIndex, deletedStudent) =>
      let studentRecord := find (record_id_is id) (studentRecords st) in
      let studentLogs :=
        List.filter (log_student_is id) (attendanceLogs st) in
      let deletedData :=
        tombstone e deletedStudent studentRecord studentLogs in
      (Ok deletedData,
       {| students := delete studentIndex (students st);
          studentRecords :=
            List.filter (fun r => negb (record_id_is id r))
                        (studentRecords st);
          attendanceLogs :=
            List.filter (fun l => negb (log_student_is id l))
                        (attendanceLogs st);
          deletedStudents := deletedStudents st ++ [deletedData] |})
  end.

(** The body of the search loop of [restoreStudent] for one element:
    the normalised entry when the element answers to [id]. *)
Definition restore_candidate (e : env) (id : value) (item : deleted_item)
  : option deleted_item :=
  let m := it_members item in
  if match it_student item with
     | Some s => loose_eq (prop s "id") id
     | None => false
     end
  then Some item
  else if loose_eq (prop m "id") id then
    Some {| it_members :=
              literal [("deletedAt", VStr (now_iso e));
                       ("deletedBy", VStr "system")];
            it_student := Some m;
            it_record := None;
            it_logs := [] |}
  else if truthy (js_or (prop m "fullName") (prop m "name")) then
    let studentId :=
      js_or (js_or (prop m "id") (prop m "studentId"))
            (match it_student item with
             | Some s => prop s "id"
             | None => VUndef
             end) in
    if loose_eq studentId id then
      Some {| it_members :=
                literal
                  [("deletedAt",
                      js_or (prop m "deletedAt") (VStr (now_iso e)));
                   ("deletedBy",
                      js_or (prop m "deletedBy") (VStr "system"))];
              it_student := Some (default m (it_student item));
              it_record := it_record item;
              it_logs := it_logs item |}
    else None
  else None.

Fixpoint find_deleted (e : env) (id : value) (l : list deleted_item)
  : option (nat * deleted_item) :=
  match l with
  | [] => None
  | item :: rest =>
      match restore_candidate e id item with
      | Some deletedData => Some (0%nat, deletedData)
      | None => (fun ix => (S ix.1, ix.2)) <$> find_deleted e id rest
      end
  end.

Definition same_log_key (log existing : log_entry) : bool :=
  loose_eq (log_studentId existing) (log_studentId log)
  && strict_eq (log_date existing) (log_date log)
  && loose_eq (log_session existing) (log_session log).

(** One round of the [forEach] that puts the logs back. *)
Definition restore_log (cur : list log_entry) (log : log_entry)
  : list log_entry :=
  match findIndex (same_log_key log) cur with
  | Some i => <[i := log]> cur
  | None => cur ++ [log]
  end.

(** The step that puts the record back: the saved record replaces the
    one found under the student's identifier or is appended; without a
    saved record a fresh one is created. *)
Definition restore_record (e : env) (st : t) (deletedData : deleted_item)
    (student : obj) : t :=
  match it_record deletedData with
  | Some record =>
      match findIndex (record_id_is (prop student "id"))
                      (studentRecords st) with
      | Some i => with_records st (<[i := record]> (studentRecords st))
      | None => with_records st (studentRecords st ++ [record])
      end
  | None => (createStudentRecord e st student).2
  end.

Definition restoreStudent (e : env) (st : t) (id : value)
  : result obj * t :=
  match find_deleted e id (deletedStudents st) with
  | None =>
      (Throw ("Deleted student with ID " +:+ to_string id
                +:+ " not found"), st)
  | Some (deletedIndex, deletedData) =>
      let st1 := with_deleted st (delete deletedIndex (deletedStudents st)) in
      match it_student deletedData with
      | None => (Throw "Invalid deleted student data structure", st1)
      | Some student =>
          if negb (truthy (prop student "id")) then
            (Throw "Invalid deleted student data structure", st1)
          else
            match getStudentById st1 (prop student "id") with
            | Some _ =>
                (Throw ("Student with ID " +:+ to_string (prop student "id")
                          +:+ " already exists in active students"),
                 with_deleted st1
                   (splice_in deletedIndex deletedData
                              (deletedStudents st1)))
            | None =>
                let st2 := with_students st1 (students st1 ++ [student]) in
                let st3 := restore_record e st2 deletedData student in
                (Ok student,
                 with_logs st3
                   (fold_left restore_log (it_logs deletedData)
                              (attendanceLogs st3)))
            end
      end
  end.

(** *** Whole-dataset import *)

(** The argument of [importData] when it is an object: its three
    required members, and [deletedStudents] when present. *)
Record import_data : Type := {
  in_students : collection obj;
  in_studentRecords : collection student_record;
  in_attendanceLogs : collection log_entry;
  in_deletedStudents : option (list deleted_item)
}.

Record import_summary : Type := {
  imported_students : nat;
  imported_records : nat;
  imported_logs : nat;
  imported_deleted : nat
}.

(** [None] is an argument that is falsy or not an object.  The
    assignments inside the [try] block cannot throw, so the handler that
    puts the backup back is never entered. *)
Definition importData (st : t) (data : option import_data)
  : result import_summary * t :=
  match data with
  | None => (Throw "Invalid data format", st)
  | Some d =>
      match in_students d with
      | Array ss =>
          match in_studentRecords d with
          | Array rs =>
              match in_attendanceLogs d with
              | Array ls =>
                  let ds := default [] (in_deletedStudents d) in
                  (Ok {| imported_students := List.length ss;
                         imported_records := List.length rs;
                         imported_logs := List.length ls;
                         imported_deleted := List.length ds |},
                   {| students := ss; studentRecords := rs;
                      attendanceLogs := ls; deletedStudents := ds |})
              | _ => (Throw "Invalid or missing attendanceLogs array", st)
              end
          | _ => (Throw "Invalid or missing studentRecords array", st)
          end
      | _ => (Throw "Invalid or missing students array", st)
      end
  end.

(** *** Editing a student *)

Definition rename_record (e : env) (updatedStudent : obj)
    (r : student_record) : student_record :=
  {| rec_id := rec_id r;
     rec_fullName := prop updatedStudent "fullName";
     rec_parentPhone := prop updatedStudent "parentPhone";
     rec_sessions := rec_sessions r;
     rec_createdAt := rec_createdAt r;
     rec_updatedAt := VStr (now_iso e) |}.

Definition updateStudent (e : env) (st : t) (id : value) (updates : obj)
  : result obj * t :=
  match find_indexed (id_is id) (students st) with
  | None =>
      (Throw ("Student with ID " +:+ to_string id +:+ " not found"), st)
  | Some (studentIndex, current) =>
      let updatedStudent :=
        <["updatedAt" := VStr (now_iso e)]> (updates ∪ current) in
      let v := CONFIG.validateStudent updatedStudent in
      if negb (CONFIG.isValid v) then
        (Throw ("Invalid student data: " +:+ join_comma (CONFIG.errors v)),
         st)
      else
        let st1 :=
          with_students st (<[studentIndex := updatedStudent]> (students st)) in
        let records :=
          match find_indexed (record_id_is id) (studentRecords st1) with
          | Some (recordIndex, r) =>
              <[recordIndex := rename_record e updatedStudent r]>
                (studentRecords st1)
          | None => studentRecords st1
          end in
        (Ok updatedStudent, with_records st1 records)
  end.

(** *** Adding several students *)

Record batch_results : Type := {
  successful : list (nat * obj);
  failed : list (nat * string * obj);
  total : nat
}.

(** The [forEach] of [addMultipleStudents] from position [index] on;
    [clock index] is what the clock reads during the call for that
    position. *)
Fixpoint add_each (clock : nat -> env) (index : nat) (st : t)
    (studentsData : list obj)
  : list (nat * obj) * list (nat * string * obj) * t :=
  match studentsData with
  | [] => ([], [], st)
  | studentData :: rest =>
      match addStudent (clock index) st studentData with
      | (Ok student, st1) =>
          let '(ok, ko, st2) := add_each clock (S index) st1 rest in
          ((index, student) :: ok, ko, st2)
      | (Throw msg, st1) =>
          let '(ok, ko, st2) := add_each clock (S index) st1 rest in
          (ok, (index, msg, studentData) :: ko, st2)
      end
  end.

Definition addMultipleStudents (clock : nat -> env) (st : t)
    (studentsData : list obj) : batch_results * t :=
  let '(ok, ko, st') := add_each clock 0 st studentsData in
  ({| successful := ok; failed := ko;
      total := List.length studentsData |}, st').

(** *** Permanent deletion *)

Inductive source : Type := active | deleted.

(** A call that may also end in a [TypeError] of the engine. *)
Inductive outcome (A : Type) : Type :=
| Completed (a : A)
| Failed (msg : string)
| TypeErrorRaised.
Arguments Completed {A} a.
Arguments Failed {A} msg.
Arguments TypeErrorRaised {A}.

(** [this.deletedStudents.findIndex(deleted => deleted.student.id == id)]:
    reading [.id] of a missing [student] member raises. *)
Fixpoint find_tombstone (id : value) (l : list deleted_item)
  : outcome (option (nat * deleted_item)) :=
  match l with
  | [] => Completed None
  | item :: rest =>
      match it_student item with
      | None => TypeErrorRaised
      | Some s =>
          if loose_eq (prop s "id") id then Completed (Some (0%nat, item))
          else
            match find_tombstone id rest with
            | Completed (Some (i, x)) => Completed (Some (S i, x))
            | other => other
            end
      end
  end.

Definition deleteStudentPermanent (st : t) (id : value)
  : outcome (option obj * source) * t :=
  match find_indexed (id_is id) (students st) with
  | Some (studentIndex, deletedStudent) =>
      (Completed (Some deletedStudent, active),
       {| students := delete studentIndex (students st);
          studentRecords :=
            List.filter (fun r => negb (record_id_is id r))
                        (studentRecords st);
          attendanceLogs :=
            List.filter (fun l => negb (log_student_is id l))
                        (attendanceLogs st);
          deletedStudents := deletedStudents st |})
  | None =>
      match find_tombstone id (deletedStudents st) with
      | Completed (Some (deletedIndex, deletedData)) =>
          (Completed (it_student deletedData, deleted),
           with_deleted st (delete deletedIndex (deletedStudents st)))
      | Completed None =>
          (Failed ("Student with ID " +:+ to_string id
                     +:+ " not found in active or deleted records"), st)
      | Failed msg => (Failed msg, st)
      | TypeErrorRaised => (TypeErrorRaised, st)
      end
  end.

Definition clearDeletedStudents (st : t) : nat * t :=
  (List.length (deletedStudents st), with_deleted st []).

(** *** Repairing the tombstones of imported data *)

Definition repair_item (e : env) (item : deleted_item)
  : option deleted_item :=
  let m := it_members item in
  let has_student :=
    match it_student item with Some _ => true | None => false end in
  if has_student && truthy (prop m "deletedAt") then Some item
  else if truthy (prop m "id") && truthy (prop m "fullName") then
    Some {| it_members :=
              literal [("deletedAt", VStr (now_iso e));
                       ("deletedBy", VStr "imported")];
            it_student := Some m;
            it_record := None;
            it_logs := [] |}
  else
    let student := default m (it_student item) in
    if truthy (prop student "id") then
      Some {| it_members :=
                literal
                  [("deletedAt",
                      js_or (prop m "deletedAt") (VStr (now_iso e)));
                   ("deletedBy",
                      js_or (prop m "deletedBy") (VStr "imported"))];
              it_student := Some student;
              it_record := it_record item;
              it_logs := it_logs item |}
    else None.

Definition validateAndFixDeletedStudentsStructure (e : env) (st : t) : t :=
  with_deleted st (omap (repair_item e) (deletedStudents st)).

(** *** Searching and filtering *)

Definition field_contains (needle : string) (student : obj)
    (field : string) : bool :=
  let v := prop student field in
  truthy v && includes needle (toLowerCase (to_string v)).

Definition searchStudents (st : t) (searchTerm : string) : list obj :=
  if String.eqb searchTerm EmptyString
     || String.eqb (trim searchTerm) EmptyString
  then []
  else
    let searchTermLower := toLowerCase searchTerm in
    List.filter
      (fun student =>
         existsb (field_contains searchTermLower student) CONFIG.searchFields)
      (students st).

(** One [if (filters.k) logs = logs.filter(...)] step. *)
Definition filter_step (filters : obj) (k : string)
    (test : value -> log_entry -> bool) (logs : list log_entry)
  : list log_entry :=
  if truthy (prop filters k) then List.filter (test (prop filters k)) logs
  else logs.

Definition getAttendanceLogs (st : t) (filters : obj) : list log_entry :=
  filter_step filters "attendance"
    (fun v l => strict_eq (log_attendance l) v)
    (filter_step filters "date"
       (fun v l => strict_eq (log_date l) v)
       (filter_step filters "session"
          (fun v l => loose_eq (log_session l) v)
          (filter_step filters "studentId"
             (fun v l => loose_eq (log_studentId l) v)
             (attendanceLogs st)))).

Definition getTodayAttendance (e : env) (st : t) : list log_entry :=
  getAttendanceLogs st {["date" := VStr (today e)]}.

Record statistics : Type := {
  totalStudents : nat;
  stat_deletedStudents : nat;
  totalRecords : nat;
  todayPresent : nat;
  todayAbsent : nat;
  totalSessions : Z;
  stat_lastUpdated : string
}.

Definition getStatistics (e : env) (st : t) : statistics :=
  let todayLogs := getTodayAttendance e st in
  {| totalStudents := List.length (students st);
     stat_deletedStudents := List.length (deletedStudents st);
     totalRecords := List.length (attendanceLogs st);
     todayPresent :=
       List.length
         (List.filter
            (fun l => strict_eq (log_attendance l) (VStr "present"))
            todayLogs);
     todayAbsent :=
       List.length
         (List.filter
            (fun l => strict_eq (log_attendance l) (VStr "absent"))
            todayLogs);
     totalSessions := CONFIG.maxSessions;
     stat_lastUpdated := now_iso e |}.

(** *** The range of the embedding *)

(** The identifiers of the students and of the records convert exactly,
    so that [==] on them is the engine's. *)
Definition exact_ids (st : t) : bool :=
  forallb (fun s => converts_exactly (prop s "id")) (students st)
  && forallb (fun r => converts_exactly (rec_id r)) (studentRecords st).

End DataManager.

(* ===================================================================== *)
(** ** The relay server                                                   *)
(* ===================================================================== *)

Module Server.

(** The in-memory data set [appData].  A whole-data-set push or import
    replaces it by whatever object arrived, so each member that should
    be an array is a [collection]. *)
Record appData : Type := {
  students : collection obj;
  studentRecords : collection student_record;
  attendanceLogs : collection log_entry;
  deletedStudents : collection deleted_item;
  lastUpdated : value;
  version : value
}.

(** The value of the top-level [let appData] before any message. *)
Definition initial (e : env) : appData :=
  {| students := Array []; studentRecords := Array [];
     attendanceLogs := Array []; deletedStudents := Array [];
     lastUpdated := VStr (now_iso e); version := VStr "2.0.0" |}.

Definition with_students (st : appData) (c : collection obj) : appData :=
  {| students := c; studentRecords := studentRecords st;
     attendanceLogs := attendanceLogs st;
     deletedStudents := deletedStudents st;
     lastUpdated := lastUpdated st; version := version st |}.

Definition with_records (st : appData) (c : collection student_record)
  : appData :=
  {| students := students st; studentRecords := c;
     attendanceLogs := attendanceLogs st;
     deletedStudents := deletedStudents st;
     lastUpdated := lastUpdated st; version := version st |}.

Definition with_logs (st : appData) (c : collection log_entry) : appData :=
  {| students := students st; studentRecords := studentRecords st;
     attendanceLogs := c;
     deletedStudents := deletedStudents st;
     lastUpdated := lastUpdated st; version := version st |}.

Definition with_lastUpdated (st : appData) (v : value) : appData :=
  {| students := students st; studentRecords := studentRecords st;
     attendanceLogs := attendanceLogs st;
     deletedStudents := deletedStudents st;
     lastUpdated := v; version := version st |}.

(** [error.message]: a text of the program, or the text the engine gives
    a [TypeError] raised by a method call on something that is not an
    array. *)
Inductive error_text : Type :=
| Message (s : string)
| TypeError.

Inductive message : Type :=
| data_sync (d : appData)
| update_confirmed (timestamp : value)
| operation_success_student (operation : string) (data : obj)
| operation_success_log (operation : string) (data : log_entry)
| operation_error (operation : string) (error : error_text)
| qr_scan_result_success (student : obj)
| qr_scan_result_failure (error : string)
| student_scanned (studentId studentName : value) (timestamp : string).

(** [socket.emit], [socket.broadcast.emit] and [io.emit]. *)
Inductive emit : Type :=
| to_sender (m : message)
| to_others (m : message)
| to_all (m : message).

(** How a handler without [try] ends. *)
Inductive completion : Type :=
| Returned
| Uncaught.

Definition student_id_is (id : value) (s : obj) : bool :=
  strict_eq (prop s "id") id.

Definition record_id_is (id : value) (r : student_record) : bool :=
  strict_eq (rec_id r) id.

(** *** [socket.on('data-update')] *)
Definition on_data_update (e : env) (st data : appData)
  : appData * list emit :=
  let st' := with_lastUpdated data (VStr (now_iso e)) in
  (st', [to_others (data_sync st');
         to_sender (update_confirmed (lastUpdated st'))]).

(** *** [socket.on('add-student')] *)

Definition add_student_record (e : env) (newStudent : obj)
  : student_record :=
  {| rec_id := prop newStudent "id";
     rec_fullName := prop newStudent "fullName";
     rec_parentPhone := prop newStudent "parentPhone";
     rec_sessions := init_sessions 8;
     rec_createdAt := VStr (now_iso e);
     rec_updatedAt := VStr (now_iso e) |}.

Definition on_add_student (e : env) (st : appData) (studentData : obj)
  : appData * list emit :=
  let failed (st' : appData) (err : error_text) :=
    (st', [to_sender (operation_error "add-student" err)]) in
  match students st with
  | Array ss =>
      if existsb (student_id_is (prop studentData "id")) ss then
        failed st
          (Message ("Student with ID "
                      +:+ to_string (prop studentData "id")
                      +:+ " already exists"))
      else
        let newStudent :=
          <["updatedAt" := VStr (now_iso e)]>
            (<["createdAt" := VStr (now_iso e)]> studentData) in
        let st1 :=
          with_lastUpdated (with_students st (Array (ss ++ [newStudent])))
                           (VStr (now_iso e)) in
        match studentRecords st1 with
        | Array rs =>
            let st2 :=
              with_records st1
                (Array (rs ++ [add_student_record e newStudent])) in
            (st2, [to_all (data_sync st2);
                   to_sender
                     (operation_success_student "add-student" newStudent)])
        | _ => failed st1 TypeError
        end
  | _ => failed st TypeError
  end.

(** *** [socket.on('mark-attendance')] *)

(** The object assigned to [sessions[session]]. *)
Definition session_of (e : env) (attendanceData : obj) : obj :=
  literal
    [ ("attendance", prop attendanceData "attendance");
      ("homework", prop attendanceData "homework");
      ("quiz", prop attendanceData "quiz");
      ("date", js_or (prop attendanceData "date") (VStr (today e))) ].

Definition set_session (e : env) (attendanceData : obj)
    (r : student_record) : student_record :=
  {| rec_id := rec_id r;
     rec_fullName := rec_fullName r;
     rec_parentPhone := rec_parentPhone r;
     rec_sessions :=
       <[to_string (prop attendanceData "session")
           := session_of e attendanceData]> (rec_sessions r);
     rec_createdAt := rec_createdAt r;
     rec_updatedAt := VStr (now_iso e) |}.

Definition new_log (e : env) (attendanceData : obj) : log_entry :=
  {| log_id := fresh_id e;
     log_date := js_or (prop attendanceData "date") (VStr (today e));
     log_time := js_or (prop attendanceData "time") (VStr (now_time e));
     log_studentId := prop attendanceData "studentId";
     log_studentName := prop attendanceData "studentName";
     log_session := parseInt (prop attendanceData "session");
     log_attendance := prop attendanceData "attendance";
     log_homework := prop attendanceData "homework";
     log_quiz := parseInt (prop attendanceData "quiz");
     log_createdAt := VStr (now_iso e);
     log_updatedAt := VStr (now_iso e) |}.

Definition keep_identity (old entry : log_entry) : log_entry :=
  {| log_id := log_id old;
     log_date := log_date entry;
     log_time := log_time entry;
     log_studentId := log_studentId entry;
     log_studentName := log_studentName entry;
     log_session := log_session entry;
     log_attendance := log_attendance entry;
     log_homework := log_homework entry;
     log_quiz := log_quiz entry;
     log_createdAt := log_createdAt old;
     log_updatedAt := log_updatedAt entry |}.

Definition on_mark_attendance (e : env) (st : appData)
    (attendanceData : obj) : appData * list emit :=
  let failed (st' : appData) :=
    (st', [to_sender (operation_error "mark-attendance" TypeError)]) in
  match studentRecords st with
  | Array rs =>
      let rs' :=
        match find_indexed
                (record_id_is (prop attendanceData "studentId")) rs with
        | Some (recordIndex, r) =>
            <[recordIndex := set_session e attendanceData r]> rs
        | None => rs
        end in
      let st1 := with_records st (Array rs') in
      let logEntry := new_log e attendanceData in
      match attendanceLogs st1 with
      | Array ls =>
          let '(entry, ls') :=
            match find_indexed
                    (same_key_strict (prop attendanceData "studentId")
                                     (log_date logEntry)
                                     (log_session logEntry)) ls with
            | Some (existingLogIndex, old) =>
                let entry := keep_identity old logEntry in
                (entry, <[existingLogIndex := entry]> ls)
            | None => (logEntry, logEntry :: ls)
            end in
          let st2 :=
            with_lastUpdated (with_logs st1 (Array ls'))
                             (VStr (now_iso e)) in
          (st2, [to_all (data_sync st2);
                 to_sender
                   (operation_success_log "mark-attendance" entry)])
      | _ => failed st1
      end
  | _ => failed st
  end.

(** *** [socket.on('qr-scan')] *)

(** The payload [{studentId, student?}]; [qr_student] is [None] when the
    member is missing. *)
Record qr_scan : Type := {
  qr_studentId : value;
  qr_student : option obj
}.

Definition adopted (e : env) (client_copy : obj) : obj :=
  <["createdAt" := VStr (now_iso e)]>
    (<["syncedFromClient" := VBool true]> client_copy).

Definition adopted_record (e : env) (student : obj) : student_record :=
  {| rec_id := prop student "id";
     rec_fullName := prop student "fullName";
     rec_parentPhone := VUndef;
     rec_sessions := ∅;
     rec_createdAt := VStr (now_iso e);
     rec_updatedAt := VUndef |}.

Definition accept_scan (e : env) (student : obj) : list emit :=
  [ to_sender (qr_scan_result_success student);
    to_all (student_scanned (prop student "id") (prop student "fullName")
                            (now_iso e)) ].

Definition on_qr_scan (e : env) (st : appData) (data : qr_scan)
  : appData * list emit * completion :=
  match students st with
  | Array ss =>
      match find (student_id_is (qr_studentId data)) ss with
      | Some student => (st, accept_scan e student, Returned)
      | None =>
          match qr_student data with
          | Some client_copy =>
              let student := adopted e client_copy in
              let st1 := with_students st (Array (ss ++ [student])) in
              match studentRecords st1 with
              | Array rs =>
                  let st2 :=
                    match find (record_id_is (prop student "id")) rs with
                    | Some _ => st1
                    | None =>
                        with_records st1
                          (Array (rs ++ [adopted_record e student]))
                    end in
                  (st2, accept_scan e student, Returned)
              | _ => (st1, [], Uncaught)
              end
          | None =>
              (st, [to_sender (qr_scan_result_failure "Student not found")],
               Returned)
          end
      end
  | _ => (st, [], Uncaught)
  end.

(** *** [POST /api/import] *)

(** [res.json(...)] on success, [res.status(n).json({error})]
    otherwise.  The [length] of a member that is not an array is left
    unspecified ([None]). *)
Inductive http_response : Type :=
| imported (students : nat) (records logs : option nat)
| http_error (status : nat) (error : error_text).

(** [None] is a body on which the member access itself throws. *)
Definition post_api_import (e : env) (st : appData)
    (body : option appData) : appData * list emit * http_response :=
  match body with
  | None => (st, [], http_error 500 TypeError)
  | Some importedData =>
      match students importedData with
      | Array ss =>
          let st' := with_lastUpdated importedData (VStr (now_iso e)) in
          let out := [to_all (data_sync st')] in
          match studentRecords st', attendanceLogs st' with
          | Absent, _ => (st', out, http_error 500 TypeError)
          | _, Absent => (st', out, http_error 500 TypeError)
          | rs, ls =>
              let len {A} (c : collection A) :=
                match c with
                | Array l => Some (List.length l)
                | _ => None
                end in
              (st', out, imported (List.length ss) (len rs) (len ls))
          end
      | _ => (st, [], http_error 400 (Message "Invalid data format"))
      end
  end.

End Server.

(* ===================================================================== *)
(** ** The synchronisation client                                         *)
(* ===================================================================== *)

Module SyncClient.

(** The two members that guard every send: [connected], and whether
    [socket] is set. *)
Record t : Type := {
  connected : bool;
  socket : bool
}.

(** What [sendQRScan] emits on the [qr-scan] channel: nothing when the
    client is offline, otherwise the object [{ studentId }]. *)
Definition sendQRScan (c : t) (studentId : value)
  : option Server.qr_scan :=
  if negb (connected c) || negb (socket c) then None
  else Some {| Server.qr_studentId := studentId;
               Server.qr_student := None |}.

(** [data.k || []] for a member received from the server: an array, or
    nothing; [None] when the member holds something else, which the store
    would then keep in place of an array. *)
Definition or_empty {A : Type} (c : collection A) : option (list A) :=
  match c with
  | Array l => Some l
  | Absent => Some []
  | NonArray => None
  end.

(** [handleDataSync]: the four arrays of the store are replaced by the
    members of the data set. *)
Definition handleDataSync (dm : DataManager.t) (data : Server.appData)
  : option DataManager.t :=
  ss ← or_empty (Server.students data);
  rs ← or_empty (Server.studentRecords data);
  ls ← or_empty (Server.attendanceLogs data);
  ds ← or_empty (Server.deletedStudents data);
  Some {| DataManager.students := ss; DataManager.studentRecords := rs;
          DataManager.attendanceLogs := ls;
          DataManager.deletedStudents := ds |}.

(** [sendDataUpdate]: nothing when offline, otherwise the [data-update]
    message with the four arrays of the store. *)
Definition sendDataUpdate (c : t) (dm : DataManager.t)
  : option Server.appData :=
  if negb (connected c) || negb (socket c) then None
  else Some {| Server.students := Array (DataManager.students dm);
               Server.studentRecords :=
                 Array (DataManager.studentRecords dm);
               Server.attendanceLogs :=
                 Array (DataManager.attendanceLogs dm);
               Server.deletedStudents :=
                 Array (DataManager.deletedStudents dm);
               Server.lastUpdated := VUndef;
               Server.version := VUndef |}.

End SyncClient.

(* ===================================================================== *)
(** ** Sample data: the concrete scenario of the specification            *)
(* ===================================================================== *)

Module Sample.

Definition monday : env :=
  {| now_iso := "2024-01-15T09:00:00.000Z"; today := "1/15/2024";
     now_time := "9:00:00 AM"; fresh_id := VNum 1705309200123 |}.

Definition tuesday : env :=
  {| now_iso := "2024-01-16T09:30:00.000Z"; today := "1/16/2024";
     now_time := "9:30:00 AM"; fresh_id := VNum 1705397400456 |}.

Definition ahmed : obj :=
  literal [("id", VStr "2024001"); ("fullName", VStr "Ahmed Ali");
           ("phoneNumber", VStr "0100000000")].

(** Another student claiming the same identifier. *)
Definition omar : obj :=
  literal [("id", VStr "2024001"); ("fullName", VStr "Omar Said");
           ("phoneNumber", VStr "0111111111")].

(** The same identifier written as a number. *)
Definition omar_numeric : obj :=
  literal [("id", VNum 2024001); ("fullName", VStr "Omar Said");
           ("phoneNumber", VStr "0111111111")].

(** A store holding Ahmed and, deliberately, no record for him (the state
    a client is in after a data set without records was synchronised). *)
Definition roster_without_record : DataManager.t :=
  {| DataManager.students := [ahmed]; DataManager.studentRecords := [];
     DataManager.attendanceLogs := []; DataManager.deletedStudents := [] |}.

(** The store after [addStudent(ahmed)] on an empty one. *)
Definition roster : DataManager.t :=
  (DataManager.addStudent monday DataManager.constructor ahmed).2.

(** The server after Ahmed was added through [add-student]. *)
Definition served : Server.appData :=
  (Server.on_add_student monday (Server.initial monday) ahmed).1.

(** A data set whose [studentRecords] member is an object that is not an
    array. *)
Definition upload_with_odd_records : Server.appData :=
  {| Server.students := Array []; Server.studentRecords := NonArray;
     Server.attendanceLogs := Array []; Server.deletedStudents := Array [];
     Server.lastUpdated := VUndef; Server.version := VStr "2.0.0" |}.

(** A data set whose [studentRecords] member is missing. *)
Definition upload_without_records : Server.appData :=
  {| Server.students := Array []; Server.studentRecords := Absent;
     Server.attendanceLogs := Array []; Server.deletedStudents := Array [];
     Server.lastUpdated := VUndef; Server.version := VStr "2.0.0" |}.

(** A data set whose [students] member is not an array. *)
Definition upload_without_students : Server.appData :=
  {| Server.students := NonArray; Server.studentRecords := Array [];
     Server.attendanceLogs := Array []; Server.deletedStudents := Array [];
     Server.lastUpdated := VUndef; Server.version := VStr "2.0.0" |}.

Definition file_without_logs : DataManager.import_data :=
  {| DataManager.in_students := Array [omar];
     DataManager.in_studentRecords := Array [];
     DataManager.in_attendanceLogs := Absent;
     DataManager.in_deletedStudents := None |}.

(** The [mark-attendance] payload of the concrete scenario. *)
Definition first_mark : obj :=
  literal [("studentId", VStr "2024001"); ("studentName", VStr "Ahmed Ali");
           ("session", VNum 1); ("attendance", VStr "present");
           ("homework", VStr "complete"); ("quiz", VNum 8);
           ("date", VStr "1/15/2024")].

(** A second mark of the same session on the same date. *)
Definition second_mark : obj :=
  literal [("studentId", VStr "2024001"); ("studentName", VStr "Ahmed Ali");
           ("session", VNum 1); ("attendance", VStr "absent");
           ("homework", VStr "partial"); ("quiz", VNum 5);
           ("date", VStr "1/15/2024")].

(** The session data of the concrete scenario. *)
Definition first_session : obj :=
  literal [("attendance", VStr "present"); ("homework", VStr "complete");
           ("quiz", VNum 8); ("date", VStr "1/15/2024")].

(** The store after that session was written for Ahmed. *)
Definition roster_marked : DataManager.t :=
  (DataManager.updateStudentSession monday roster (VStr "2024001") (VNum 1)
     first_session).2.

(** Ahmed is deleted, Omar is then added under the identifier that has
    become free: the store now holds Omar as the active student and
    Ahmed's tombstone. *)
Definition roster_reused : DataManager.t :=
  (DataManager.addStudent tuesday
     (DataManager.deleteStudentTemporary monday roster (VStr "2024001")).2
     omar).2.

(** The store after Ahmed's attendance was marked and logged. *)
Definition roster_logged : DataManager.t :=
  (DataManager.addAttendanceLog monday roster_marked first_mark).2.

(** A store whose only tombstone holds a student with the identifier 0. *)
Definition roster_with_zero_tombstone : DataManager.t :=
  {| DataManager.students := []; DataManager.studentRecords := [];
     DataManager.attendanceLogs := [];
     DataManager.deletedStudents :=
       [DataManager.tombstone monday
          (literal [("id", VNum 0); ("fullName", VStr "Zero")]) None []] |}.

(** The server after that mark was received for Ahmed. *)
Definition served_marked : Server.appData :=
  (Server.on_mark_attendance monday served first_mark).1.

(** A [mark-attendance] payload that carries the attendance only. *)
Definition attendance_only : obj :=
  literal [("studentId", VStr "2024001"); ("studentName", VStr "Ahmed Ali");
           ("session", VNum 1); ("attendance", VStr "absent")].

Definition online : SyncClient.t :=
  {| SyncClient.connected := true; SyncClient.socket := true |}.

End Sample.

(* ===================================================================== *)
(** ** Observations used to state the properties                          *)
(* ===================================================================== *)

Definition is_array {A : Type} (c : collection A) : bool :=
  match c with Array _ => true | _ => false end.

(** The shape [importData] asks for: an object whose [students],
    [studentRecords] and [attendanceLogs] members are arrays. *)
Definition array_shaped (data : option DataManager.import_data) : bool :=
  match data with
  | Some d =>
      is_array (DataManager.in_students d)
      && is_array (DataManager.in_studentRecords d)
      && is_array (DataManager.in_attendanceLogs d)
  | None => false
  end.

(** The digits of a decimal numeral, most significant first. *)
Fixpoint uint_digits (d : Decimal.uint) : list N :=
  match d with
  | Decimal.Nil => []
  | Decimal.D0 l => 0%N :: uint_digits l
  | Decimal.D1 l => 1%N :: uint_digits l
  | Decimal.D2 l => 2%N :: uint_digits l
  | Decimal.D3 l => 3%N :: uint_digits l
  | Decimal.D4 l => 4%N :: uint_digits l
  | Decimal.D5 l => 5%N :: uint_digits l
  | Decimal.D6 l => 6%N :: uint_digits l
  | Decimal.D7 l => 7%N :: uint_digits l
  | Decimal.D8 l => 8%N :: uint_digits l
  | Decimal.D9 l => 9%N :: uint_digits l
  end.

(** The log holds at most one entry per key: no two entries at different
    positions answer to each other's (studentId, date, session). *)
Fixpoint distinct_keys (l : list log_entry) : Prop :=
  match l with
  | [] => True
  | x :: rest =>
      Forall (fun y => DataManager.same_log_key x y = false
                       /\ DataManager.same_log_key y x = false) rest
      /\ distinct_keys rest
  end.

(** The calls of the store that either succeed or leave it alone. *)
Inductive guarded_call : Type :=
| call_addStudent (studentData : obj)
| call_updateStudent (id : value) (updates : obj)
| call_deleteStudentTemporary (id : value)
| call_addAttendanceLog (logData : obj)
| call_importData (data : option DataManager.import_data).

(** The error message when the call throws, and the store after it. *)
Definition run_guarded (e : env) (st : DataManager.t) (c : guarded_call)
  : option string * DataManager.t :=
  let thrown {A : Type} (r : result A * DataManager.t) :=
    (match r.1 with Throw msg => Some msg | Ok _ => None end, r.2) in
  match c with
  | call_addStudent d => thrown (DataManager.addStudent e st d)
  | call_updateStudent id u => thrown (DataManager.updateStudent e st id u)
  | call_deleteStudentTemporary id =>
      thrown (DataManager.deleteStudentTemporary e st id)
  | call_addAttendanceLog d => thrown (DataManager.addAttendanceLog e st d)
  | call_importData d => thrown (DataManager.importData st d)
  end.

(** What a call returned, if it returned. *)
Definition returned {A : Type} (r : result A) : list A :=
  match r with Ok a => [a] | Throw _ => [] end.

(** The event names of what a handler emitted, in order. *)
Definition event_names (out : list Server.emit) : list string :=
  (fun m =>
     match m with
     | Server.to_sender m' | Server.to_others m' | Server.to_all m' =>
         match m' with
         | Server.data_sync _ => "data-sync"
         | Server.update_confirmed _ => "update-confirmed"
         | Server.operation_success_student _ _ => "operation-success"
         | Server.operation_success_log _ _ => "operation-success"
         | Server.operation_error _ _ => "operation-error"
         | Server.qr_scan_result_success _ => "qr-scan-result"
         | Server.qr_scan_result_failure _ => "qr-scan-result"
         | Server.student_scanned _ _ _ => "student-scanned"
         end
     end) <$> out.

(** The elements of a member when it is an array. *)
Definition array_items {A : Type} (c : collection A) : list A :=
  match c with Array l => l | _ => [] end.

Definition ids (l : list obj) : list value :=
  (fun s => prop s "id") <$> l.

Definition full_names (l : list obj) : list value :=
  (fun s => prop s "fullName") <$> l.

(** The slot [sessions[key]] of a record, read as an object: a missing
    slot has no members. *)
Definition slot_of (r : student_record) (key : string) : obj :=
  default ∅ (rec_sessions r !! key).

(** The slot of the record the store returns for [studentId]. *)
Definition client_slot (st : DataManager.t) (studentId : value)
    (key : string) : option obj :=
  (fun r => slot_of r key) <$> DataManager.getStudentRecord st studentId.

(** The slot of the first record of the server that is strictly
    identified by [studentId]. *)
Definition server_slot (st : Server.appData) (studentId : value)
    (key : string) : option obj :=
  (fun r => slot_of r key)
    <$> find (Server.record_id_is studentId)
             (array_items (Server.studentRecords st)).

(** A non-empty string of decimal digits, and the number it writes. *)
Definition all_digits_string (s : string) : bool :=
  negb (String.eqb s EmptyString) && forallb_string is_digit s.

Definition numeral_value (s : string) : Z :=
  Z.of_N (digits_to_N 10 (split_digits 10 s).1).

(* ===================================================================== *)
(** * Properties                                                          *)
(* ===================================================================== *)

(** ** Searching arrays *)

Section Searching.
Context {A : Type} (p : A -> bool).

Lemma find_indexed_Some (l : list A) (i : nat) (x : A) :
  find_indexed p l = Some (i, x) ->
  l !! i = Some x /\ p x = true /\
  (forall j y, (j < i)%nat -> l !! j = Some y -> p y = false).
Proof.
  revert i. induction l as [|a l IH]; intros i H; simpl in H.
  - discriminate.
  - destruct (p a) eqn:Ha.
    + inversion H; subst. repeat split; [done|]. intros j y Hj; lia.
    + destruct (find_indexed p l) as [[k z]|] eqn:Hf; simpl in H;
        [|discriminate].
      inversion H; subst. destruct (IH k eq_refl) as (Hl & Hp & Hb).
      repeat split; [done..|].
      intros [|j] y Hj Hy; simpl in Hy.
      * by inversion Hy; subst.
      * apply (Hb j); [lia|done].
Qed.

Lemma find_indexed_None (l : list A) :
  find_indexed p l = None <-> (forall x, x ∈ l -> p x = false).
Proof.
  induction l as [|a l IH]; simpl.
  - split; [|done]. intros _ x Hx. by apply not_elem_of_nil in Hx.
  - destruct (p a) eqn:Ha.
    + split; [done|]. intros H. rewrite (H a) in Ha; [done|]. by left.
    + destruct (find_indexed p l) as [[k z]|] eqn:Hf; simpl.
      * split; [done|]. intros H.
        assert (Some (k, z) = None) as Hn; [|done].
        apply IH. intros x Hx. apply H. by right.
      * split; [|done]. intros _ x Hx.
        apply elem_of_cons in Hx as [->|Hx]; [done|].
        by apply IH.
Qed.

Lemma find_as_indexed (l : list A) :
  find p l = snd <$> find_indexed p l.
Proof.
  induction l as [|a l IH]; simpl; [done|].
  destruct (p a); [done|]. rewrite IH.
  by destruct (find_indexed p l) as [[??]|].
Qed.

Lemma find_None_indexed (l : list A) :
  find p l = None <-> find_indexed p l = None.
Proof.
  rewrite find_as_indexed. by destruct (find_indexed p l) as [[??]|].
Qed.

Lemma find_Some_indexed (l : list A) (x : A) :
  find p l = Some x -> exists i, find_indexed p l = Some (i, x).
Proof.
  rewrite find_as_indexed.
  destruct (find_indexed p l) as [[i y]|]; simpl; [|done].
  intros [= ->]. by exists i.
Qed.

Lemma find_indexed_app_fresh (l : list A) (x : A) :
  find_indexed p l = None -> p x = true ->
  find_indexed p (l ++ [x]) = Some (List.length l, x).
Proof.
  induction l as [|a l IH]; simpl; intros Hn Hx.
  - by rewrite Hx.
  - destruct (p a); [done|].
    destruct (find_indexed p l) as [[??]|]; [done|].
    by rewrite IH.
Qed.

Lemma filter_none (l : list A) :
  find_indexed p l = None -> List.filter p l = [].
Proof.
  induction l as [|a l IH]; simpl; [done|].
  destruct (p a); [done|].
  destruct (find_indexed p l) as [[??]|]; [done|]. auto.
Qed.

Lemma filter_first (l : list A) (i : nat) (x : A) :
  find_indexed p l = Some (i, x) ->
  exists rest, List.filter p l = x :: rest.
Proof.
  revert i. induction l as [|a l IH]; simpl; intros i H; [done|].
  destruct (p a).
  - inversion H; subst. eauto.
  - destruct (find_indexed p l) as [[k z]|]; simpl in H; [|done].
    inversion H; subst. eauto.
Qed.

(** Overwriting the first hit by another hit: if there was at most one
    hit, the new element is the only one. *)
Lemma filter_overwrite (l : list A) (i : nat) (x y : A) :
  find_indexed p l = Some (i, x) -> p y = true ->
  (List.length (List.filter p l) <= 1)%nat ->
  List.filter p (<[i := y]> l) = [y].
Proof.
  revert i. induction l as [|a l IH]; simpl; intros i H Hy Hlen; [done|].
  destruct (p a) eqn:Ha.
  - inversion H; subst. simpl. rewrite Hy. f_equal.
    simpl in Hlen. destruct (List.filter p l); [done|simpl in Hlen; lia].
  - destruct (find_indexed p l) as [[k z]|] eqn:Hf; simpl in H; [|done].
    inversion H; subst. simpl. rewrite Ha. by eapply IH.
Qed.

End Searching.

(** ** Equality of values *)

Lemma strict_eq_refl_truthy (v : value) : truthy v = true -> strict_eq v v = true.
Proof.
  destruct v; simpl; try done.
  - intros _. by destruct b.
  - intros _. apply Z.eqb_refl.
  - intros _. apply String.eqb_refl.
Qed.

Lemma loose_eq_refl_truthy (v : value) : truthy v = true -> loose_eq v v = true.
Proof.
  destruct v; simpl; try done.
  - intros _. by destruct b.
  - intros _. apply Z.eqb_refl.
  - intros _. apply String.eqb_refl.
Qed.

Lemma strict_eq_or_string (v : value) (s : string) :
  strict_eq (js_or v (VStr s)) (js_or v (VStr s)) = true.
Proof.
  unfold js_or. destruct (truthy v) eqn:Hv.
  - by apply strict_eq_refl_truthy.
  - apply String.eqb_refl.
Qed.

Lemma strict_eq_loose (a b : value) : strict_eq a b = true -> loose_eq a b = true.
Proof. destruct a, b; simpl; try done. by destruct b, b0. Qed.

(** ** [parseInt] reads back the numeral of an integer *)

Lemma split_digits_numeral (d : Decimal.uint) :
  split_digits 10 (NilEmpty.string_of_uint d) = (uint_digits d, EmptyString).
Proof. induction d; simpl; [done|by rewrite IHd..]. Qed.

Lemma digits_acc (d : Decimal.uint) (acc : positive) :
  fold_left (fun a k => (a * 10 + k)%N) (uint_digits d) (Npos acc)
    = Npos (Pos.of_uint_acc d acc).
Proof.
  revert acc. induction d; intros acc; simpl; [done|..];
    rewrite <- IHd; f_equal; lia.
Qed.

Lemma digits_value (d : Decimal.uint) :
  digits_to_N 10 (uint_digits d) = Pos.of_uint d.
Proof.
  unfold digits_to_N. induction d; simpl; [done|done|..];
    by rewrite <- digits_acc.
Qed.

(** The numeral of a positive number starts with a digit and is not read
    as a hexadecimal literal. *)
Lemma numeral_shape (d : Decimal.uint) :
  d <> Decimal.Nil ->
  exists c rest,
    NilEmpty.string_of_uint d = String c rest /\
    is_space c = false /\ Ascii.eqb c "-" = false /\
    Ascii.eqb c "+" = false /\
    strip_radix_prefix "x" "X" (String c rest) = None.
Proof.
  intros Hd. destruct d as [|d|d|d|d|d|d|d|d|d|d]; [done|..];
    eexists _, _; (split; [reflexivity|]); repeat split.
  by destruct d.
Qed.

Lemma parse_numeral (d : Decimal.uint) :
  d <> Decimal.Nil ->
  parse_int_string (NilEmpty.string_of_uint d)
    = Some (Z.of_N (Pos.of_uint d)) /\
  parse_int_string (String "-" (NilEmpty.string_of_uint d))
    = Some (- Z.of_N (Pos.of_uint d)).
Proof.
  intros Hd.
  destruct (numeral_shape d Hd) as (c & rest & Hs & Hsp & Hm & Hp & Hx).
  pose proof (split_digits_numeral d) as Hsplit.
  pose proof (digits_value d) as Hval.
  assert (uint_digits d <> []) as Hne by (by destruct d).
  rewrite Hs in *. unfold parse_int_string. split.
  - simpl trim_left. rewrite Hsp, Hm, Hp, Hx, Hsplit.
    destruct (uint_digits d); [done|]. by rewrite Hval.
  - remember (String c rest) as s eqn:Heqs. simpl.
    rewrite Hx, Hsplit.
    destruct (uint_digits d); [done|]. by rewrite Hval.
Qed.

Lemma parse_int_string_numeral (z : Z) :
  parse_int_string (Z_to_string z) = Some z.
Proof.
  destruct z as [|p|p]; [done|..]; unfold Z_to_string; simpl.
  - unfold NilZero.string_of_uint.
    pose proof (DecimalPos.Unsigned.to_uint_nonnil p) as Hnil.
    destruct (parse_numeral _ Hnil) as [H _].
    destruct (Pos.to_uint p) eqn:Hd; [done|..]; rewrite <- Hd in *;
      by rewrite H, DecimalPos.Unsigned.of_to.
  - unfold NilZero.string_of_uint.
    pose proof (DecimalPos.Unsigned.to_uint_nonnil p) as Hnil.
    destruct (parse_numeral _ Hnil) as [_ H].
    destruct (Pos.to_uint p) eqn:Hd; [done|..]; rewrite <- Hd in *;
      by rewrite H, DecimalPos.Unsigned.of_to.
Qed.

Lemma parseInt_number (z : Z) : parseInt (VNum z) = VNum z.
Proof. unfold parseInt. simpl. by rewrite parse_int_string_numeral. Qed.

(** ** Text of the ASCII range *)

(** On ASCII text the length in code units is the number of
    characters. *)
Lemma code_units_ascii (s : string) :
  ascii_text s = true -> code_units s = String.length s.
Proof.
  induction s as [|c s IH]; simpl; [done|].
  intros H. apply andb_true_iff in H as [Hc Hs].
  rewrite (IH Hs). f_equal.
  unfold code_units_of. unfold ascii_char in Hc. by rewrite Hc.
Qed.

(** ** Session slots of a fresh record *)

Lemma init_sessions_unfolded :
  init_sessions CONFIG.maxSessions
    = <["8" := empty_session]> (<["7" := empty_session]>
        (<["6" := empty_session]> (<["5" := empty_session]>
          (<["4" := empty_session]> (<["3" := empty_session]>
            (<["2" := empty_session]> (<["1" := empty_session]> ∅))))))).
Proof. reflexivity. Qed.

Lemma init_sessions_slot (i : Z) :
  1 <= i <= CONFIG.maxSessions ->
  init_sessions CONFIG.maxSessions !! Z_to_string i = Some empty_session.
Proof.
  rewrite init_sessions_unfolded. unfold CONFIG.maxSessions. intros Hi.
  assert (i = 1 \/ i = 2 \/ i = 3 \/ i = 4 \/ i = 5 \/ i = 6 \/ i = 7 \/ i = 8)
    as Hcases by lia.
  repeat (destruct Hcases as [-> | Hcases];
          [change (Z_to_string _) with "1" || change (Z_to_string _) with "2"
           || change (Z_to_string _) with "3"
           || change (Z_to_string _) with "4"
           || change (Z_to_string _) with "5"
           || change (Z_to_string _) with "6"
           || change (Z_to_string _) with "7";
           repeat (rewrite lookup_insert_ne by discriminate);
           apply lookup_insert_eq|]).
  subst. change (Z_to_string 8) with "8". apply lookup_insert_eq.
Qed.

(** ** The session-number check comes after the record is created *)



(** ** QR scans *)

Lemma adopted_tagged (e : env) (client_copy : obj) :
  prop (Server.adopted e client_copy) "syncedFromClient" = VBool true.
Proof.
  unfold prop, Server.adopted.
  rewrite lookup_insert_ne by done. by rewrite lookup_insert_eq.
Qed.

Lemma adopted_members (e : env) (client_copy : obj) (k : string) :
  k <> "syncedFromClient" -> k <> "createdAt" ->
  Server.adopted e client_copy !! k = client_copy !! k.
Proof.
  intros H1 H2. unfold Server.adopted.
  by rewrite !lookup_insert_ne by done.
Qed.

(** C1.  A [qr-scan] whose [studentId] is not among the server's active
    students: when the message carries a student object the server adopts
    it (the client's members, tagged [syncedFromClient: true]), appends it
    to the active students, adds a companion record unless one with the
    adopted identifier exists, and answers the scanner with a success
    result holding the adopted student; when the message carries no
    student the answer is the failure "Student not found" and nothing
    changes. *)
Theorem qr_scan_adopts_on_miss
    (e : env) (st : Server.appData) (data : Server.qr_scan)
    (ss : list obj) (rs : list student_record) :
  Server.students st = Array ss ->
  Server.studentRecords st = Array rs ->
  find (Server.student_id_is (Server.qr_studentId data)) ss = None ->
  match Server.qr_student data with
  | Some client_copy =>
      exists student st',
        Server.on_qr_scan e st data
          = (st',
             [Server.to_sender (Server.qr_scan_result_success student);
              Server.to_all
                (Server.student_scanned (prop student "id")
                   (prop student "fullName") (now_iso e))],
             Server.Returned) /\
        prop student "syncedFromClient" = VBool true /\
        (forall k, k <> "syncedFromClient" -> k <> "createdAt" ->
           student !! k = client_copy !! k) /\
        Server.students st' = Array (ss ++ [student]) /\
        Server.studentRecords st'
          = match find (Server.record_id_is (prop student "id")) rs with
            | Some _ => Array rs
            | None => Array (rs ++ [Server.adopted_record e student])
            end /\
        rec_id (Server.adopted_record e student) = prop client_copy "id" /\
        Server.attendanceLogs st' = Server.attendanceLogs st /\
        Server.deletedStudents st' = Server.deletedStudents st
  | None =>
      Server.on_qr_scan e st data
        = (st,
           [Server.to_sender
              (Server.qr_scan_result_failure "Student not found")],
           Server.Returned)
  end.
Proof.
  intros Hss Hrs Hmiss. unfold Server.on_qr_scan.
  rewrite Hss, Hmiss.
  destruct (Server.qr_student data) as [client_copy|]; [|done].
  simpl. rewrite Hrs.
  eexists (Server.adopted e client_copy), _.
  split; [reflexivity|].
  split; [apply adopted_tagged|].
  split; [intros k; apply adopted_members|].
  destruct (find _ rs); simpl; rewrite ?Hrs; repeat split; try done.
  all: unfold prop; by rewrite adopted_members.
Qed.

Lemma qr_scan_adopts_on_miss_witness :
  exists student st',
    Server.on_qr_scan Sample.tuesday (Server.initial Sample.monday)
        {| Server.qr_studentId := VStr "2024001";
           Server.qr_student := Some Sample.ahmed |}
      = (st',
         [Server.to_sender (Server.qr_scan_result_success student);
          Server.to_all
            (Server.student_scanned (prop student "id")
               (prop student "fullName") "2024-01-16T09:30:00.000Z")],
         Server.Returned) /\
    prop student "syncedFromClient" = VBool true /\
    Server.students st' = Array [student] /\
    Server.studentRecords st'
      = Array [Server.adopted_record Sample.tuesday student].
Proof.
  destruct (qr_scan_adopts_on_miss Sample.tuesday
              (Server.initial Sample.monday)
              {| Server.qr_studentId := VStr "2024001";
                 Server.qr_student := Some Sample.ahmed |}
              [] [] eq_refl eq_refl eq_refl)
    as (student & st' & Hrun & Htag & Hmem & Hss & Hrs & _).
  exists student, st'. exact (conj Hrun (conj Htag (conj Hss Hrs))).
Defined.

(** C9.  What [sendQRScan] puts on the wire holds the scanned identifier
    and no student object.  Hence the server never adopts anything from
    such a message (its data set is left as it was), and when the
    identifier is unknown to the server the scanner is answered with the
    failure result. *)
Theorem client_scan_never_adopted
    (c : SyncClient.t) (e : env) (st : Server.appData)
    (studentId : value) (data : Server.qr_scan) (ss : list obj) :
  SyncClient.sendQRScan c studentId = Some data ->
  Server.students st = Array ss ->
  find (Server.student_id_is studentId) ss = None ->
  Server.qr_studentId data = studentId /\
  Server.qr_student data = None /\
  Server.on_qr_scan e st data
    = (st,
       [Server.to_sender (Server.qr_scan_result_failure "Student not found")],
       Server.Returned).
Proof.
  unfold SyncClient.sendQRScan. intros Hsend Hss Hmiss.
  destruct (negb (SyncClient.connected c) || negb (SyncClient.socket c));
    [done|].
  injection Hsend as <-. simpl. repeat split.
  unfold Server.on_qr_scan. simpl. by rewrite Hss, Hmiss.
Qed.

Lemma client_scan_never_adopted_witness :
  exists data,
    SyncClient.sendQRScan Sample.online (VStr "2024999") = Some data /\
    Server.on_qr_scan Sample.tuesday Sample.served data
      = (Sample.served,
         [Server.to_sender
            (Server.qr_scan_result_failure "Student not found")],
         Server.Returned).
Proof.
  eexists. split; [reflexivity|].
  exact (proj2 (proj2
    (client_scan_never_adopted Sample.online Sample.tuesday Sample.served
       (VStr "2024999") _ _ eq_refl eq_refl eq_refl))).
Defined.

(** ** Whole-data-set import *)

(** C7, as the claim states it, fails on the server: a data set whose
    [students] member is an array and whose [studentRecords] member is
    not is accepted; it replaces the server's data set and is
    broadcast. *)
Lemma server_import_accepts_odd_records :
  let run :=
    Server.post_api_import Sample.tuesday Sample.served
      (Some Sample.upload_with_odd_records) in
  is_array (Server.studentRecords Sample.upload_with_odd_records) = false /\
  run.2 = Server.imported 0 None (Some 0%nat) /\
  Server.studentRecords run.1.1 = NonArray /\
  ids (array_items (Server.students Sample.served)) = [VStr "2024001"] /\
  Server.students run.1.1 = Array [] /\
  run.1.2 = [Server.to_all (Server.data_sync run.1.1)].
Proof. split_and!; vm_compute; reflexivity. Qed.

(** When the member is missing altogether the data set is replaced and
    broadcast all the same, and the request is then answered with an
    error. *)
Lemma server_import_commits_before_failing :
  let run :=
    Server.post_api_import Sample.tuesday Sample.served
      (Some Sample.upload_without_records) in
  run.2 = Server.http_error 500 Server.TypeError /\
  ids (array_items (Server.students Sample.served)) = [VStr "2024001"] /\
  Server.students run.1.1 = Array [] /\
  run.1.2 = [Server.to_all (Server.data_sync run.1.1)].
Proof. split_and!; vm_compute; reflexivity. Qed.

(** C7, amended.  [DataManager.importData] checks that [students],
    [studentRecords] and [attendanceLogs] are arrays before it assigns
    anything: when one of them is not, it throws and the store is exactly
    what it was.  The server's [POST /api/import] checks the [students]
    member only: when that is not an array the request is refused with
    status 400, nothing is broadcast and the data set is what it was. *)
Theorem import_rejected_leaves_state
    (st : DataManager.t) (data : option DataManager.import_data)
    (e : env) (served : Server.appData) (body : Server.appData) :
  array_shaped data = false ->
  is_array (Server.students body) = false ->
  (exists msg, DataManager.importData st data = (Throw msg, st)) /\
  Server.post_api_import e served (Some body)
    = (served, [], Server.http_error 400 (Server.Message "Invalid data format")).
Proof.
  intros Hshape Hbody. split.
  - unfold DataManager.importData. destruct data as [d|]; [|eauto].
    simpl in Hshape.
    destruct (DataManager.in_students d); [eauto..|].
    destruct (DataManager.in_studentRecords d); [eauto..|].
    destruct (DataManager.in_attendanceLogs d); [eauto..|].
    done.
  - unfold Server.post_api_import.
    by destruct (Server.students body).
Qed.

Lemma import_rejected_leaves_state_witness :
  (exists msg,
     DataManager.importData Sample.roster (Some Sample.file_without_logs)
       = (Throw msg, Sample.roster)) /\
  Server.post_api_import Sample.tuesday Sample.served
      (Some Sample.upload_without_students)
    = (Sample.served, [],
       Server.http_error 400 (Server.Message "Invalid data format")).
Proof.
  exact (import_rejected_leaves_state Sample.roster
           (Some Sample.file_without_logs) Sample.tuesday Sample.served
           Sample.upload_without_students eq_refl eq_refl).
Defined.

(** A well-shaped import replaces the four arrays of the store. *)
Lemma import_accepted_replaces
    (st : DataManager.t) (d : DataManager.import_data) :
  array_shaped (Some d) = true ->
  exists summary ss rs ls,
    DataManager.in_students d = Array ss /\
    DataManager.in_studentRecords d = Array rs /\
    DataManager.in_attendanceLogs d = Array ls /\
    DataManager.importData st (Some d)
      = (Ok summary,
         {| DataManager.students := ss;
            DataManager.studentRecords := rs;
            DataManager.attendanceLogs := ls;
            DataManager.deletedStudents :=
              default [] (DataManager.in_deletedStudents d) |}).
Proof.
  unfold array_shaped, DataManager.importData.
  destruct (DataManager.in_students d) as [| |ss]; try done.
  destruct (DataManager.in_studentRecords d) as [| |rs]; try done.
  destruct (DataManager.in_attendanceLogs d) as [| |ls]; try done.
  intros _. by eexists _, ss, rs, ls.
Qed.

(** ** Writing a session slot *)

Lemma merge_session_supplied (e : env) (old sessionData : obj)
    (k : string) (v : value) :
  sessionData !! k = Some v -> k <> "date" ->
  DataManager.merge_session e old sessionData !! k = Some v.
Proof.
  intros Hk Hne. unfold DataManager.merge_session.
  rewrite lookup_insert_ne by done. by apply lookup_union_Some_l.
Qed.

Lemma merge_session_kept (e : env) (old sessionData : obj) (k : string) :
  sessionData !! k = None -> k <> "date" ->
  DataManager.merge_session e old sessionData !! k = old !! k.
Proof.
  intros Hk Hne. unfold DataManager.merge_session.
  rewrite lookup_insert_ne by done. by apply lookup_union_r.
Qed.

Lemma merge_session_date (e : env) (old sessionData : obj) :
  DataManager.merge_session e old sessionData !! "date"
    = Some (js_or (prop sessionData "date") (VStr (today e))).
Proof. unfold DataManager.merge_session. by rewrite lookup_insert_eq. Qed.

(** What [updateStudentSession] does once the record is located and the
    session number has passed the check. *)
Lemma update_located
    (e : env) (st : DataManager.t) (studentId sessionNumber : value)
    (sessionData : obj) (i : nat) (record : student_record) :
  find_indexed (DataManager.record_id_is studentId)
               (DataManager.studentRecords st) = Some (i, record) ->
  lt_num sessionNumber 1 || gt_num sessionNumber CONFIG.maxSessions = false ->
  DataManager.updateStudentSession e st studentId sessionNumber sessionData
    = (Ok (DataManager.write_session e (to_string sessionNumber)
             sessionData record),
       DataManager.with_records st
         (<[i := DataManager.write_session e (to_string sessionNumber)
                   sessionData record]> (DataManager.studentRecords st))).
Proof.
  intros Hfound Hrange. unfold DataManager.updateStudentSession.
  by rewrite Hfound, Hrange.
Qed.

(** C2, as the claim states it, fails on both paths.  On the server, an
    attendance-only mark of a slot that holds the homework "complete" and
    the quiz score 8 leaves both undefined: the handler assigns a new slot
    object.  In the store the homework and the quiz are kept, and the date
    1/15/2024 of the slot is rewritten when the mark is made on the
    following day. *)
Lemma attendance_only_mark_loses_recorded_values :
  let served' :=
    (Server.on_mark_attendance Sample.tuesday Sample.served_marked
       Sample.attendance_only).1 in
  let st' :=
    (DataManager.updateStudentSession Sample.tuesday Sample.roster_marked
       (VStr "2024001") (VNum 1) {["attendance" := VStr "absent"]}).2 in
  (server_slot Sample.served_marked (VStr "2024001") "1"
     ≫= (.!! "homework")) = Some (VStr "complete") /\
  (server_slot served' (VStr "2024001") "1" ≫= (.!! "homework"))
    = Some VUndef /\
  (server_slot Sample.served_marked (VStr "2024001") "1"
     ≫= (.!! "quiz")) = Some (VNum 8) /\
  (server_slot served' (VStr "2024001") "1" ≫= (.!! "quiz"))
    = Some VUndef /\
  (client_slot Sample.roster_marked (VStr "2024001") "1"
     ≫= (.!! "date")) = Some (VStr "1/15/2024") /\
  (client_slot st' (VStr "2024001") "1" ≫= (.!! "date"))
    = Some (VStr "1/16/2024").
Proof. split_and!; vm_compute; reflexivity. Qed.

(** The members of the slot object the server assigns. *)
Lemma session_of_members (e : env) (attendanceData : obj) :
  Server.session_of e attendanceData !! "attendance"
    = Some (prop attendanceData "attendance") /\
  Server.session_of e attendanceData !! "homework"
    = Some (prop attendanceData "homework") /\
  Server.session_of e attendanceData !! "quiz"
    = Some (prop attendanceData "quiz") /\
  Server.session_of e attendanceData !! "date"
    = Some (js_or (prop attendanceData "date") (VStr (today e))).
Proof.
  unfold Server.session_of, literal. cbn [fold_left fst snd].
  split_and!.
  - by rewrite !lookup_insert_ne, lookup_insert_eq by done.
  - by rewrite !lookup_insert_ne, lookup_insert_eq by done.
  - by rewrite !lookup_insert_ne, lookup_insert_eq by done.
  - by rewrite lookup_insert_eq.
Qed.

(** What the server's [mark-attendance] does to the records once the
    record is located. *)
Lemma server_mark_located
    (e : env) (st : Server.appData) (attendanceData : obj)
    (rs : list student_record) (ls : list log_entry)
    (i : nat) (r : student_record) :
  Server.studentRecords st = Array rs ->
  Server.attendanceLogs st = Array ls ->
  find_indexed (Server.record_id_is (prop attendanceData "studentId")) rs
    = Some (i, r) ->
  Server.studentRecords (Server.on_mark_attendance e st attendanceData).1
    = Array (<[i := Server.set_session e attendanceData r]> rs).
Proof.
  intros Hrs Hls Hfound.
  unfold Server.on_mark_attendance. rewrite Hrs, Hfound. simpl.
  rewrite Hls. by destruct (find_indexed _ ls) as [[??]|].
Qed.

(** C2, amended.  An attendance-only mark of the session [n] (a number
    that passes the check of the store) for a student whose record
    exists, the identifiers of the store being in the range where [==] is
    the engine's.  In the store, [updateStudentSession] keeps the [homework] and
    [quiz] members of the slot, writes the supplied [attendance], and sets
    the [date] to the date of the day.  On the server, [mark-attendance]
    with a payload that has no [homework] and no [quiz] member replaces
    the slot: [attendance] is the supplied value, [homework] and [quiz]
    are undefined, [date] is the date of the payload or else of the day.
    On both paths the other slots of the record and the other records are
    untouched. *)
Theorem attendance_only_mark_merges_or_replaces
    (e : env) (st : DataManager.t) (served : Server.appData)
    (studentId attendance : value) (n : Z) (attendanceData : obj)
    (i : nat) (record : student_record)
    (rs : list student_record) (ls : list log_entry)
    (j : nat) (r : student_record) :
  converts_exactly studentId = true ->
  DataManager.exact_ids st = true ->
  find_indexed (DataManager.record_id_is studentId)
               (DataManager.studentRecords st) = Some (i, record) ->
  lt_num (VNum n) 1 || gt_num (VNum n) CONFIG.maxSessions = false ->
  Server.studentRecords served = Array rs ->
  Server.attendanceLogs served = Array ls ->
  find_indexed (Server.record_id_is studentId) rs = Some (j, r) ->
  prop attendanceData "studentId" = studentId ->
  prop attendanceData "session" = VNum n ->
  prop attendanceData "attendance" = attendance ->
  attendanceData !! "homework" = None ->
  attendanceData !! "quiz" = None ->
  let key := Z_to_string n in
  (exists record',
     DataManager.updateStudentSession e st studentId (VNum n)
         {["attendance" := attendance]}
       = (Ok record',
          DataManager.with_records st
            (<[i := record']> (DataManager.studentRecords st))) /\
     slot_of record' key !! "homework" = slot_of record key !! "homework" /\
     slot_of record' key !! "quiz" = slot_of record key !! "quiz" /\
     slot_of record' key !! "attendance" = Some attendance /\
     slot_of record' key !! "date" = Some (VStr (today e)) /\
     (forall key', key' <> key ->
        rec_sessions record' !! key' = rec_sessions record !! key') /\
     (forall i', i' <> i ->
        <[i := record']> (DataManager.studentRecords st) !! i'
          = DataManager.studentRecords st !! i')) /\
  (exists r',
     Server.studentRecords
         (Server.on_mark_attendance e served attendanceData).1
       = Array (<[j := r']> rs) /\
     slot_of r' key !! "homework" = Some VUndef /\
     slot_of r' key !! "quiz" = Some VUndef /\
     slot_of r' key !! "attendance" = Some attendance /\
     slot_of r' key !! "date"
       = Some (js_or (prop attendanceData "date") (VStr (today e))) /\
     (forall key', key' <> key ->
        rec_sessions r' !! key' = rec_sessions r !! key') /\
     (forall j', j' <> j -> <[j := r']> rs !! j' = rs !! j')).
Proof.
  intros _ _ Hfound Hrange Hrs Hls Hserved Hsid Hsession Hatt Hhw Hquiz key.
  split.
  - eexists. split; [by apply update_located|].
    change (to_string (VNum n)) with key.
    unfold slot_of at 1 3 5 6. simpl. rewrite lookup_insert_eq. simpl.
    fold (slot_of record key).
    repeat split.
    + by apply merge_session_kept.
    + by apply merge_session_kept.
    + by apply merge_session_supplied.
    + by rewrite merge_session_date.
    + intros key' Hne. by rewrite lookup_insert_ne.
    + intros i' Hne. by rewrite list_lookup_insert_ne.
  - exists (Server.set_session e attendanceData r).
    rewrite <- Hsid in Hserved.
    split; [by apply (server_mark_located e served attendanceData rs ls)|].
    destruct (session_of_members e attendanceData)
      as (Hm1 & Hm2 & Hm3 & Hm4).
    unfold slot_of, Server.set_session. simpl.
    rewrite Hsession. change (to_string (VNum n)) with key.
    rewrite lookup_insert_eq. simpl.
    rewrite Hm1, Hm2, Hm3, Hm4, Hatt.
    unfold prop. rewrite Hhw, Hquiz. simpl.
    split_and!; try done.
    + intros key' Hne. by rewrite lookup_insert_ne.
    + intros j' Hne. by rewrite list_lookup_insert_ne.
Qed.

Lemma attendance_only_mark_merges_or_replaces_witness :
  exists record record' r',
    DataManager.getStudentRecord Sample.roster_marked (VStr "2024001")
      = Some record /\
    slot_of record "1" !! "homework" = Some (VStr "complete") /\
    (DataManager.updateStudentSession Sample.tuesday Sample.roster_marked
       (VStr "2024001") (VNum 1) {["attendance" := VStr "absent"]}).1
      = Ok record' /\
    slot_of record' "1" !! "homework" = slot_of record "1" !! "homework" /\
    Server.studentRecords
        (Server.on_mark_attendance Sample.tuesday Sample.served_marked
           Sample.attendance_only).1
      = Array [r'] /\
    slot_of r' "1" !! "homework" = Some VUndef.
Proof.
  assert (exists r, Server.studentRecords Sample.served_marked = Array [r])
    as [r Hrs] by (eexists; vm_compute; reflexivity).
  assert (find_indexed (Server.record_id_is (VStr "2024001")) [r]
          = Some (0%nat, r)) as Hserved.
  { injection Hrs as <-. vm_compute. reflexivity. }
  assert (Server.attendanceLogs Sample.served_marked
          = Array (array_items (Server.attendanceLogs Sample.served_marked)))
    as Hls by (vm_compute; reflexivity).
  assert (DataManager.exact_ids Sample.roster_marked = true) as Hexact
    by (vm_compute; reflexivity).
  eexists _.
  destruct (attendance_only_mark_merges_or_replaces Sample.tuesday
              Sample.roster_marked Sample.served_marked
              (VStr "2024001") (VStr "absent") 1 Sample.attendance_only
              0%nat _ [r] _ 0%nat r
              eq_refl Hexact eq_refl eq_refl Hrs Hls Hserved
              eq_refl eq_refl eq_refl eq_refl eq_refl)
    as [(record' & Hrun & Hhw & _) (r' & Hmark & Hlost & _)].
  exists record', r'.
  split; [reflexivity|]. split; [reflexivity|].
  split; [by rewrite Hrun|]. split; [exact Hhw|].
  split; [exact Hmark|exact Hlost].
Defined.

(** ** Marking attendance for a student without a record *)




(** When the identifier belongs to no active student either, the call
    throws and the store is what it was. *)
Lemma update_session_unknown_student
    (e : env) (st : DataManager.t) (studentId sessionNumber : value)
    (sessionData : obj) :
  DataManager.getStudentRecord st studentId = None ->
  DataManager.getStudentById st studentId = None ->
  DataManager.updateStudentSession e st studentId sessionNumber sessionData
    = (Throw ("Student with ID " +:+ to_string studentId +:+ " not found"),
       st).
Proof.
  intros Hrec Hstudent. apply find_None_indexed in Hrec.
  unfold DataManager.updateStudentSession. by rewrite Hrec, Hstudent.
Qed.

(** On the server the records change only where a record with the marked
    identifier exists. *)
Lemma server_mark_without_record
    (e : env) (st : Server.appData) (attendanceData : obj)
    (rs : list student_record) :
  Server.studentRecords st = Array rs ->
  find (Server.record_id_is (prop attendanceData "studentId")) rs = None ->
  Server.studentRecords (Server.on_mark_attendance e st attendanceData).1
    = Array rs.
Proof.
  intros Hrs Hmiss. apply find_None_indexed in Hmiss.
  unfold Server.on_mark_attendance. rewrite Hrs, Hmiss. simpl.
  destruct (Server.attendanceLogs st); simpl; [done..|].
  by destruct (find_indexed _ l) as [[??]|].
Qed.

(** ** Adding a student whose identifier is taken *)

Lemma duplicate_message_prefix (studentData existing : obj) (nextId : string) :
  String.prefix "DUPLICATE_ID|"
    (DataManager.duplicate_message studentData existing nextId) = true.
Proof. reflexivity. Qed.

Lemma validation_message_prefix (errors : list string) :
  String.prefix "DUPLICATE_ID|"
    ("Invalid student data: " +:+ join_comma errors) = false.
Proof. reflexivity. Qed.

(** [addStudent] on valid data whose identifier an active student
    answers to. *)
Lemma add_duplicate
    (e : env) (st : DataManager.t) (studentData existing : obj) :
  CONFIG.isValid (CONFIG.validateStudent studentData) = true ->
  DataManager.getStudentById st (prop studentData "id") = Some existing ->
  DataManager.addStudent e st studentData
    = (Throw (DataManager.duplicate_message studentData existing
                (DataManager.generateNextAvailableId st)), st).
Proof.
  intros Hvalid Hdup. unfold DataManager.addStudent.
  by rewrite Hvalid, Hdup.
Qed.

(** C4, as the claim states it, fails on the server, which compares
    identifiers strictly: after Ahmed was added with the identifier
    "2024001", a student with the number 2024001 as identifier is accepted
    and appended. *)
Lemma server_accepts_numeric_twin :
  let run :=
    Server.on_add_student Sample.tuesday Sample.served
      Sample.omar_numeric in
  loose_eq (prop Sample.ahmed "id") (prop Sample.omar_numeric "id") = true /\
  ids (array_items (Server.students Sample.served)) = [VStr "2024001"] /\
  ids (array_items (Server.students run.1))
    = [VStr "2024001"; VNum 2024001] /\
  full_names (array_items (Server.students run.1))
    = [VStr "Ahmed Ali"; VStr "Omar Said"] /\
  event_names run.2 = ["data-sync"; "operation-success"].
Proof. split_and!; vm_compute; reflexivity. Qed.

(** C4, amended.  In the store, [addStudent] on valid data (ASCII text
    in the validated fields) whose identifier loosely equals that of an
    active student throws an error
    whose message starts with [DUPLICATE_ID|], and the store (the
    students, their records, the logs) is exactly what it was.  On the
    server, [add-student] with an identifier strictly equal to that of an
    active student answers the sender with an error and changes
    nothing. *)
Theorem duplicate_identifier_rejected
    (e : env) (st : DataManager.t) (served : Server.appData)
    (a b : obj) (ss : list obj) (a' : obj) :
  CONFIG.ascii_fields b = true ->
  CONFIG.isValid (CONFIG.validateStudent b) = true ->
  a ∈ DataManager.students st ->
  loose_eq (prop a "id") (prop b "id") = true ->
  Server.students served = Array ss ->
  a' ∈ ss ->
  strict_eq (prop a' "id") (prop b "id") = true ->
  (exists msg,
     DataManager.addStudent e st b = (Throw msg, st) /\
     String.prefix "DUPLICATE_ID|" msg = true) /\
  Server.on_add_student e served b
    = (served,
       [Server.to_sender
          (Server.operation_error "add-student"
             (Server.Message
                ("Student with ID " +:+ to_string (prop b "id")
                   +:+ " already exists")))]).
Proof.
  intros _ Hvalid Ha Hloose Hss Ha' Hstrict. split.
  - destruct (DataManager.getStudentById st (prop b "id")) as [existing|]
      eqn:Hfind.
    + eexists. split; [by apply add_duplicate|].
      apply duplicate_message_prefix.
    + unfold DataManager.getStudentById in Hfind.
      apply list_elem_of_In in Ha.
      pose proof (find_none _ _ Hfind a Ha) as Hno.
      unfold DataManager.id_is in Hno. congruence.
  - unfold Server.on_add_student. rewrite Hss.
    assert (existsb (Server.student_id_is (prop b "id")) ss = true) as ->;
      [|done].
    apply existsb_exists. exists a'. split; [|done].
    by apply list_elem_of_In.
Qed.

Lemma duplicate_identifier_rejected_witness :
  (exists msg,
     DataManager.addStudent Sample.tuesday Sample.roster Sample.omar
       = (Throw msg, Sample.roster) /\
     String.prefix "DUPLICATE_ID|" msg = true) /\
  (Server.on_add_student Sample.tuesday Sample.served Sample.omar).1
    = Sample.served.
Proof.
  destruct (duplicate_identifier_rejected Sample.tuesday Sample.roster
              Sample.served
              (DataManager.new_student Sample.monday Sample.ahmed)
              Sample.omar
              [<["updatedAt" := VStr (now_iso Sample.monday)]>
                 (<["createdAt" := VStr (now_iso Sample.monday)]>
                    Sample.ahmed)]
              (<["updatedAt" := VStr (now_iso Sample.monday)]>
                 (<["createdAt" := VStr (now_iso Sample.monday)]>
                    Sample.ahmed))
              eq_refl eq_refl ltac:(left) eq_refl eq_refl ltac:(left)
              eq_refl)
    as [Hclient Hserver].
  split; [exact Hclient|]. by rewrite Hserver.
Defined.

(** ** The suggested identifier *)

Lemma max_list_lower (x : Z) (xs : list Z) : x <= DataManager.max_list x xs.
Proof.
  unfold DataManager.max_list. revert x.
  induction xs as [|y ys IH]; intros x; simpl; [lia|].
  specialize (IH (Z.max x y)). lia.
Qed.

Lemma max_list_upper (x : Z) (xs : list Z) (y : Z) :
  In y xs -> y <= DataManager.max_list x xs.
Proof.
  unfold DataManager.max_list. revert x.
  induction xs as [|a ys IH]; intros x Hy; simpl; [done|].
  destruct Hy as [->|Hy].
  - pose proof (max_list_lower (Z.max x y) ys) as H.
    unfold DataManager.max_list in H. lia.
  - by apply IH.
Qed.

Lemma max_list_attained (x : Z) (xs : list Z) :
  In (DataManager.max_list x xs) (x :: xs).
Proof.
  unfold DataManager.max_list. revert x.
  induction xs as [|a ys IH]; intros x; simpl; [by left|].
  destruct (IH (Z.max x a)) as [H|H]; [|right; right; exact H].
  destruct (Z.max_spec x a) as [[_ Hm]|[_ Hm]]; rewrite Hm in H |- *.
  - right. by left.
  - by left.
Qed.

(** The positive numeric suffixes: when there is one, the largest is
    attained by a student and bounds the suffix of every student. *)
Lemma positive_suffixes_max (l : list obj) (n : Z) (ns : list Z) :
  List.filter (fun k => 0 <? k) (DataManager.numeric_suffix <$> l) = n :: ns ->
  let m := DataManager.max_list n ns in
  0 < m /\
  (exists s, s ∈ l /\ DataManager.numeric_suffix s = m) /\
  (forall s, s ∈ l -> DataManager.numeric_suffix s <= m).
Proof.
  intros Hfilter m.
  assert (In m (List.filter (fun k => 0 <? k)
                  (DataManager.numeric_suffix <$> l))) as Hm.
  { rewrite Hfilter. apply max_list_attained. }
  apply filter_In in Hm as [Hin Hpos]. apply Z.ltb_lt in Hpos.
  split; [done|]. split.
  - apply list_elem_of_In, list_elem_of_fmap in Hin as (s & -> & Hs).
    by exists s.
  - intros s Hs.
    destruct (0 <? DataManager.numeric_suffix s) eqn:Hsign.
    + assert (In (DataManager.numeric_suffix s) (n :: ns)) as [->|Hn].
      { rewrite <- Hfilter. apply filter_In. split; [|done].
        apply list_elem_of_In, list_elem_of_fmap. by exists s. }
      * apply max_list_lower.
      * by apply max_list_upper.
    + apply Z.ltb_ge in Hsign. lia.
Qed.

Lemma no_positive_suffix (l : list obj) :
  List.filter (fun k => 0 <? k) (DataManager.numeric_suffix <$> l) = [] ->
  forall s, s ∈ l -> DataManager.numeric_suffix s <= 0.
Proof.
  intros Hfilter s Hs.
  destruct (0 <? DataManager.numeric_suffix s) eqn:Hsign.
  - assert (In (DataManager.numeric_suffix s) []) as [].
    rewrite <- Hfilter. apply filter_In. split; [|done].
    apply list_elem_of_In, list_elem_of_fmap. by exists s.
  - by apply Z.ltb_ge in Hsign.
Qed.

(** C8, as the claim states it, fails when the data does not pass
    validation: the identifier is taken, and the error is the generic
    validation error, without the prefix and without a suggestion. *)
Lemma invalid_duplicate_gets_validation_error :
  let call :=
    DataManager.addStudent Sample.tuesday Sample.roster
      {["id" := VStr "2024001"]} in
  full_names (option_list
                (DataManager.getStudentById Sample.roster (VStr "2024001")))
    = [VStr "Ahmed Ali"] /\
  call.1 = Throw
    "Invalid student data: fullName is required, phoneNumber is required" /\
  String.prefix "DUPLICATE_ID|"
    "Invalid student data: fullName is required, phoneNumber is required"
    = false.
Proof. split_and!; vm_compute; reflexivity. Qed.

(** C8, amended.  [addStudent] on data that passes validation and whose
    identifier an active student answers to throws an error whose message
    starts with [DUPLICATE_ID|] and ends with a suggested identifier.
    When some active identifier ends in digits of positive value, the
    suggestion is one plus the largest such value, formatted after the
    identifier of the last student; otherwise it is 2024001.  This is
    stated where the engine computes exactly what the embedding computes:
    ASCII text in the validated fields, identifiers that convert exactly,
    and numeric suffixes below 2^53, beyond which the engine's [parseInt],
    [Math.max] and [+ 1] round. *)
Theorem duplicate_error_suggests_next_id
    (e : env) (st : DataManager.t) (studentData existing : obj) :
  CONFIG.ascii_fields studentData = true ->
  converts_exactly (prop studentData "id") = true ->
  DataManager.exact_ids st = true ->
  (forall s, s ∈ DataManager.students st ->
     DataManager.numeric_suffix s < 2 ^ 53) ->
  CONFIG.isValid (CONFIG.validateStudent studentData) = true ->
  DataManager.getStudentById st (prop studentData "id") = Some existing ->
  exists suggestion lastStudent,
    DataManager.addStudent e st studentData
      = (Throw (DataManager.duplicate_message studentData existing
                  suggestion), st) /\
    String.prefix "DUPLICATE_ID|"
      (DataManager.duplicate_message studentData existing suggestion)
      = true /\
    last (DataManager.students st) = Some lastStudent /\
    ((exists m,
        0 < m /\
        (exists s, s ∈ DataManager.students st /\
                   DataManager.numeric_suffix s = m) /\
        (forall s, s ∈ DataManager.students st ->
                   DataManager.numeric_suffix s <= m) /\
        suggestion
          = DataManager.format_like (to_string (prop lastStudent "id"))
                                    (m + 1))
     \/
     ((forall s, s ∈ DataManager.students st ->
                 DataManager.numeric_suffix s <= 0) /\
      suggestion = "2024001")).
Proof.
  intros _ _ _ _ Hvalid Hdup.
  assert (exists lastStudent,
            last (DataManager.students st) = Some lastStudent)
    as [lastStudent Hlast].
  { unfold DataManager.getStudentById in Hdup.
    destruct (DataManager.students st) as [|s l] eqn:Hl; [done|].
    destruct (last (s :: l)) eqn:Hlast; [eauto|].
    by apply last_None in Hlast. }
  exists (DataManager.generateNextAvailableId st), lastStudent.
  split; [by apply add_duplicate|].
  split; [apply duplicate_message_prefix|].
  split; [done|].
  unfold DataManager.generateNextAvailableId. rewrite Hlast.
  destruct (List.filter _ _) as [|n ns] eqn:Hfilter.
  - right. split; [|done]. by apply no_positive_suffix.
  - left. exists (DataManager.max_list n ns).
    destruct (positive_suffixes_max _ _ _ Hfilter) as (Hpos & Hatt & Hub).
    by repeat split.
Qed.

Lemma duplicate_error_suggests_next_id_witness :
  exists suggestion,
    DataManager.addStudent Sample.tuesday Sample.roster Sample.omar
      = (Throw (DataManager.duplicate_message Sample.omar
                  (DataManager.new_student Sample.monday Sample.ahmed)
                  suggestion), Sample.roster) /\
    String.prefix "DUPLICATE_ID|"
      (DataManager.duplicate_message Sample.omar
         (DataManager.new_student Sample.monday Sample.ahmed) suggestion)
      = true.
Proof.
  assert (DataManager.exact_ids Sample.roster = true) as Hexact
    by (vm_compute; reflexivity).
  assert (forall s, s ∈ DataManager.students Sample.roster ->
            DataManager.numeric_suffix s < 2 ^ 53) as Hbound.
  { intros s Hs.
    assert (DataManager.students Sample.roster
            = [DataManager.new_student Sample.monday Sample.ahmed]) as Heq
      by reflexivity.
    rewrite Heq in Hs. apply list_elem_of_singleton in Hs. subst s.
    vm_compute. reflexivity. }
  destruct (duplicate_error_suggests_next_id Sample.tuesday Sample.roster
              Sample.omar
              (DataManager.new_student Sample.monday Sample.ahmed)
              eq_refl eq_refl Hexact Hbound eq_refl eq_refl)
    as (suggestion & lastStudent & Hrun & Hprefix & _).
  exists suggestion. exact (conj Hrun Hprefix).
Defined.

(** On the sample roster the suggestion is 2024002. *)
Example suggestion_after_ahmed :
  DataManager.generateNextAvailableId Sample.roster = "2024002".
Proof. reflexivity. Qed.

(** ** The attendance log is keyed by student, date and session *)

Lemma filter_singleton_found {A : Type} (p : A -> bool) (l : list A) (x : A) :
  List.filter p l = [x] -> exists i, find_indexed p l = Some (i, x).
Proof.
  intros Hf. destruct (find_indexed p l) as [[i y]|] eqn:Hfind.
  - destruct (filter_first p l i y Hfind) as [rest Hrest].
    rewrite Hrest in Hf. injection Hf as -> _. by exists i.
  - by rewrite (filter_none p l Hfind) in Hf.
Qed.

Lemma required_present (logData : obj) (fields : list string) (f : string) :
  DataManager.first_missing logData fields = None ->
  In f fields -> truthy (prop logData f) = true.
Proof.
  intros Hnone Hin.
  pose proof (find_none _ _ Hnone f Hin) as H. simpl in H.
  by apply negb_false_iff in H.
Qed.

Lemma strict_key_hit (sid day : value) (n : Z) (l : log_entry) :
  log_studentId l = sid -> log_date l = day -> log_session l = VNum n ->
  strict_eq sid sid = true -> strict_eq day day = true ->
  same_key_strict sid day (VNum n) l = true.
Proof.
  intros <- <- Hn H1 H2. unfold same_key_strict.
  rewrite H1, H2, Hn. simpl. by rewrite Z.eqb_refl.
Qed.

Lemma loose_key_hit (sid day : value) (n : Z) (l : log_entry) :
  log_studentId l = sid -> log_date l = day -> log_session l = VNum n ->
  loose_eq sid sid = true -> strict_eq day day = true ->
  same_key_loose sid day (VNum n) l = true.
Proof.
  intros <- <- Hn H1 H2. unfold same_key_loose.
  rewrite H1, H2, Hn. simpl. by rewrite Z.eqb_refl.
Qed.

(** Writing a log entry over the first entry with its key, or in front of
    the log when there is none: with at most one entry for the key before,
    there is exactly one after, and it inherits what [inherit] keeps. *)
Lemma upsert_unique
    (p : log_entry -> bool) (ls : list log_entry)
    (fresh : log_entry) (inherit : log_entry -> log_entry) :
  p fresh = true -> (forall old, p (inherit old) = true) ->
  let entry :=
    match find_indexed p ls with
    | Some (_, old) => inherit old
    | None => fresh
    end in
  let ls' :=
    match find_indexed p ls with
    | Some (i, old) => <[i := inherit old]> ls
    | None => fresh :: ls
    end in
  ((List.length (List.filter p ls) <= 1)%nat -> List.filter p ls' = [entry]) /\
  (forall old, List.filter p ls = [old] -> entry = inherit old).
Proof.
  intros Hfresh Hinherit entry ls'. subst entry ls'.
  destruct (find_indexed p ls) as [[i old]|] eqn:Hfind.
  - split.
    + intros Hlen. by eapply filter_overwrite.
    + intros old' Hold.
      destruct (filter_first p ls i old Hfind) as [rest Hrest].
      rewrite Hrest in Hold. by injection Hold as ->.
  - split.
    + intros _. simpl. by rewrite Hfresh, (filter_none p ls Hfind).
    + intros old' Hold. by rewrite (filter_none p ls Hfind) in Hold.
Qed.

(** One [mark-attendance] on the server, seen from the log. *)
Lemma server_mark_step
    (e : env) (st : Server.appData) (d : obj)
    (rs : list student_record) (ls : list log_entry)
    (sid day : value) (n : Z) :
  Server.studentRecords st = Array rs ->
  Server.attendanceLogs st = Array ls ->
  prop d "studentId" = sid -> strict_eq sid sid = true ->
  prop d "session" = VNum n ->
  js_or (prop d "date") (VStr (today e)) = day ->
  let p := same_key_strict sid day (VNum n) in
  exists st' entry ls' rs',
    Server.on_mark_attendance e st d
      = (st', [Server.to_all (Server.data_sync st');
               Server.to_sender
                 (Server.operation_success_log "mark-attendance" entry)]) /\
    Server.studentRecords st' = Array rs' /\
    Server.attendanceLogs st' = Array ls' /\
    log_attendance entry = prop d "attendance" /\
    log_homework entry = prop d "homework" /\
    log_quiz entry = parseInt (prop d "quiz") /\
    ((List.length (List.filter p ls) <= 1)%nat ->
       List.filter p ls' = [entry]) /\
    (forall old, List.filter p ls = [old] ->
       log_id entry = log_id old /\ log_createdAt entry = log_createdAt old).
Proof.
  intros Hrs Hls Hsid Hrefl Hsess Hday p.
  assert (strict_eq day day = true) as Hdayrefl.
  { rewrite <- Hday. apply strict_eq_or_string. }
  set (fresh := Server.new_log e d).
  assert (log_session fresh = VNum n) as Hsession.
  { unfold fresh. simpl. by rewrite Hsess, parseInt_number. }
  assert (p fresh = true) as Hfresh.
  { by apply strict_key_hit. }
  assert (forall old, p (Server.keep_identity old fresh) = true) as Hkept.
  { intros old. by apply strict_key_hit. }
  destruct (upsert_unique p ls fresh (fun old => Server.keep_identity old fresh)
              Hfresh Hkept) as [Hone Hold].
  unfold Server.on_mark_attendance. rewrite Hrs.
  cbn [Server.attendanceLogs Server.with_records]. rewrite Hls.
  fold fresh. rewrite Hsid, Hsession.
  replace (log_date fresh) with day by done. fold p.
  destruct (find_indexed p ls) as [[i old]|] eqn:Hfind;
    cbv zeta in Hone, Hold;
    eexists _, _, _, _; (split; [reflexivity|]);
    cbn [Server.attendanceLogs Server.studentRecords Server.with_logs
           Server.with_lastUpdated Server.with_records];
    (split; [reflexivity|]); (split; [reflexivity|]);
    (split; [reflexivity|]); (split; [reflexivity|]);
    (split; [reflexivity|]); (split; [exact Hone|]);
    intros old' Hold'; specialize (Hold old' Hold');
    (split; [exact (f_equal log_id Hold)
            |exact (f_equal log_createdAt Hold)]).
Qed.

(** One [addAttendanceLog] in the store, seen from the log. *)
Lemma client_log_step
    (e : env) (st : DataManager.t) (d : obj) (sid day : value) (n : Z) :
  DataManager.first_missing d
    ["studentId"; "studentName"; "session"; "attendance"] = None ->
  prop d "studentId" = sid ->
  prop d "session" = VNum n ->
  js_or (prop d "date") (VStr (today e)) = day ->
  let p := same_key_loose sid day (VNum n) in
  exists entry ls',
    DataManager.addAttendanceLog e st d
      = (Ok entry, DataManager.with_logs st ls') /\
    log_attendance entry = prop d "attendance" /\
    log_homework entry
      = js_or (prop d "homework") CONFIG.homework_defaultOption /\
    log_quiz entry
      = js_or (parseInt (prop d "quiz")) CONFIG.quiz_defaultScore /\
    ((List.length (List.filter p (DataManager.attendanceLogs st)) <= 1)%nat ->
       List.filter p ls' = [entry]) /\
    (forall old, List.filter p (DataManager.attendanceLogs st) = [old] ->
       log_id entry = log_id old /\ log_createdAt entry = log_createdAt old).
Proof.
  intros Hreq Hsid Hsess Hday p.
  assert (loose_eq sid sid = true) as Hrefl.
  { apply loose_eq_refl_truthy. rewrite <- Hsid.
    apply (required_present _ _ _ Hreq). by left. }
  assert (strict_eq day day = true) as Hdayrefl.
  { rewrite <- Hday. apply strict_eq_or_string. }
  set (logEntry := fun id createdAt : value =>
         {| log_id := id; log_date := day;
            log_time := js_or (prop d "time") (VStr (now_time e));
            log_studentId := sid;
            log_studentName := prop d "studentName";
            log_session := VNum n;
            log_attendance := prop d "attendance";
            log_homework :=
              js_or (prop d "homework") CONFIG.homework_defaultOption;
            log_quiz :=
              js_or (parseInt (prop d "quiz")) CONFIG.quiz_defaultScore;
            log_createdAt := createdAt;
            log_updatedAt := VStr (now_iso e) |}).
  assert (forall id created, p (logEntry id created) = true) as Hentry.
  { intros id created. by apply loose_key_hit. }
  destruct (upsert_unique p (DataManager.attendanceLogs st)
              (logEntry (js_or (prop d "id") (fresh_id e)) (VStr (now_iso e)))
              (fun old => logEntry (log_id old) (log_createdAt old))
              (Hentry _ _) (fun old => Hentry _ _)) as [Hone Hold].
  unfold DataManager.addAttendanceLog. rewrite Hreq.
  rewrite Hsid, Hsess, parseInt_number, Hday. fold p. fold logEntry.
  destruct (find_indexed p (DataManager.attendanceLogs st))
    as [[i old]|] eqn:Hfind;
    cbv zeta in Hone, Hold;
    eexists _, _; (split; [reflexivity|]);
    (split; [reflexivity|]); (split; [reflexivity|]);
    (split; [reflexivity|]); (split; [exact Hone|]);
    intros old' Hold'; specialize (Hold old' Hold');
    (split; [exact (f_equal log_id Hold)
            |exact (f_equal log_createdAt Hold)]).
Qed.



(** ** Soft deletion followed by restoration *)


Lemma find_deleted_none (e : env) (id : value) (l : list deleted_item) :
  (forall item, item ∈ l -> DataManager.restore_candidate e id item = None) ->
  DataManager.find_deleted e id l = None.
Proof.
  induction l as [|x l IH]; intros H; simpl; [done|].
  rewrite (H x) by (by left).
  rewrite IH; [done|]. intros item Hitem. apply H. by right.
Qed.

Lemma find_deleted_last
    (e : env) (id : value) (l : list deleted_item) (x y : deleted_item) :
  (forall item, item ∈ l -> DataManager.restore_candidate e id item = None) ->
  DataManager.restore_candidate e id x = Some y ->
  DataManager.find_deleted e id (l ++ [x]) = Some (List.length l, y).
Proof.
  induction l as [|a l IH]; intros H Hx; simpl.
  - by rewrite Hx.
  - rewrite (H a) by (by left).
    rewrite IH; [done| |done]. intros item Hitem. apply H. by right.
Qed.

Lemma filter_rejects {A : Type} (p : A -> bool) (l : list A) :
  find_indexed p (List.filter (fun x => negb (p x)) l) = None.
Proof.
  apply find_indexed_None. intros x Hx.
  apply list_elem_of_In, filter_In in Hx as [_ Hx].
  by apply negb_true_iff in Hx.
Qed.

Lemma find_overwritten {A : Type} (p : A -> bool) (l : list A) (j : nat) (x : A) :
  find_indexed p l = None -> p x = true -> (j < List.length l)%nat ->
  find p (<[j := x]> l) = Some x.
Proof.
  revert j. induction l as [|a l IH]; intros j Hnone Hx Hj; simpl in *;
    [lia|].
  destruct (p a) eqn:Ha; [done|].
  destruct (find_indexed p l) as [[??]|] eqn:Hl; [done|].
  destruct j as [|j]; simpl.
  - by rewrite Hx.
  - rewrite Ha. apply IH; [done..|lia].
Qed.

Lemma partition_permutation {A : Type} (p : A -> bool) (l : list A) :
  List.filter (fun x => negb (p x)) l ++ List.filter p l ≡ₚ l.
Proof.
  induction l as [|a l IH]; simpl; [done|].
  destruct (p a); simpl.
  - rewrite <- Permutation_middle. by constructor.
  - by constructor.
Qed.

(** Putting logs back appends them when none of them answers to an entry
    that is already there. *)
Lemma restore_logs_append (back cur : list log_entry) :
  (forall j l x, back !! j = Some l -> x ∈ cur ++ take j back ->
     DataManager.same_log_key l x = false) ->
  fold_left DataManager.restore_log back cur = cur ++ back.
Proof.
  revert cur. induction back as [|l back IH]; intros cur H; simpl.
  - by rewrite app_nil_r.
  - assert (DataManager.restore_log cur l = cur ++ [l]) as ->.
    { unfold DataManager.restore_log, findIndex.
      assert (find_indexed (DataManager.same_log_key l) cur = None) as ->;
        [|done].
      apply find_indexed_None. intros x Hx.
      apply (H 0%nat l x eq_refl). simpl. by rewrite app_nil_r. }
    rewrite IH; [by rewrite <- app_assoc|].
    intros j l' x Hj Hx. apply (H (S j) l' x Hj).
    simpl. by rewrite <- app_assoc in Hx.
Qed.

Lemma distinct_keys_filter (p : log_entry -> bool) (l : list log_entry) :
  distinct_keys l -> distinct_keys (List.filter p l).
Proof.
  induction l as [|a l IH]; simpl; [done|]. intros [Ha Hl].
  destruct (p a); simpl; [|auto]. split; [|auto].
  apply Forall_forall. intros y Hy.
  apply list_elem_of_In, filter_In in Hy as [Hy _].
  rewrite Forall_forall in Ha. apply Ha. by apply list_elem_of_In.
Qed.

Lemma distinct_keys_earlier (l : list log_entry) (j : nat) (x y : log_entry) :
  distinct_keys l -> l !! j = Some x -> y ∈ take j l ->
  DataManager.same_log_key x y = false.
Proof.
  revert j. induction l as [|a l IH]; intros j Hd Hx Hy; [done|].
  destruct Hd as [Ha Hl]. destruct j as [|j]; simpl in *.
  - by apply not_elem_of_nil in Hy.
  - apply elem_of_cons in Hy as [->|Hy].
    + rewrite Forall_forall in Ha.
      apply (Ha x). eapply list_elem_of_lookup_2. exact Hx.
    + by apply (IH j).
Qed.

Lemma distinct_keys_apart (l : list log_entry) (x y : log_entry) :
  distinct_keys l -> x ∈ l -> y ∈ l -> x <> y ->
  DataManager.same_log_key x y = false.
Proof.
  induction l as [|a l IH]; intros Hd Hx Hy Hne; [by inversion Hx|].
  destruct Hd as [Ha Hl]. rewrite Forall_forall in Ha.
  apply elem_of_cons in Hx as [->|Hx]; apply elem_of_cons in Hy as [->|Hy].
  - done.
  - by apply (Ha y).
  - by apply (Ha x).
  - by apply IH.
Qed.

Lemma restore_record_frame
    (e : env) (st : DataManager.t) (dd : deleted_item) (student : obj) :
  DataManager.students (DataManager.restore_record e st dd student)
    = DataManager.students st /\
  DataManager.attendanceLogs (DataManager.restore_record e st dd student)
    = DataManager.attendanceLogs st /\
  DataManager.deletedStudents (DataManager.restore_record e st dd student)
    = DataManager.deletedStudents st.
Proof.
  unfold DataManager.restore_record, DataManager.createStudentRecord.
  destruct (it_record dd).
  - by destruct (findIndex _ _).
  - by destruct (find_indexed _ _) as [[??]|].
Qed.

Lemma restore_record_keeps
    (e : env) (st : DataManager.t) (dd : deleted_item) (student : obj)
    (id : value) (record : student_record) :
  it_record dd = Some record ->
  DataManager.record_id_is id record = true ->
  find_indexed (DataManager.record_id_is id) (DataManager.studentRecords st)
    = None ->
  DataManager.getStudentRecord (DataManager.restore_record e st dd student) id
    = Some record.
Proof.
  intros Hrec Hid Hnone.
  unfold DataManager.restore_record, DataManager.getStudentRecord, findIndex.
  rewrite Hrec.
  destruct (find_indexed (DataManager.record_id_is (prop student "id")) _)
    as [[j x]|] eqn:Hj; simpl.
  - apply find_overwritten; [done..|].
    apply find_indexed_Some in Hj as (Hj & _).
    by apply lookup_lt_Some in Hj.
  - rewrite find_as_indexed.
    by rewrite (find_indexed_app_fresh _ _ _ Hnone Hid).
Qed.



(** ** Calls that fail without a trace, and calls that do not *)

(** X1.  When [addStudent], [updateStudent], [deleteStudentTemporary],
    [addAttendanceLog] or [importData] throws, the store is exactly what
    it was before the call. *)
Theorem guarded_calls_fail_cleanly
    (e : env) (st st' : DataManager.t) (c : guarded_call) (msg : string) :
  run_guarded e st c = (Some msg, st') -> st' = st.
Proof.
  destruct c as [d|id u|id|d|data]; unfold run_guarded; simpl.
  - unfold DataManager.addStudent.
    destruct (negb _); [by intros [= _ <-]|].
    destruct (DataManager.getStudentById _ _); [by intros [= _ <-]|].
    by destruct (DataManager.createStudentRecord _ _ _).
  - unfold DataManager.updateStudent.
    destruct (find_indexed _ _) as [[i s]|]; [|by intros [= _ <-]].
    destruct (negb _); [by intros [= _ <-]|done].
  - unfold DataManager.deleteStudentTemporary.
    destruct (find_indexed _ _) as [[i s]|]; [done|by intros [= _ <-]].
  - unfold DataManager.addAttendanceLog.
    destruct (DataManager.first_missing _ _); [by intros [= _ <-]|].
    by destruct (find_indexed _ _) as [[i old]|].
  - unfold DataManager.importData.
    destruct data as [d|]; [|by intros [= _ <-]].
    destruct (DataManager.in_students d); try by intros [= _ <-].
    destruct (DataManager.in_studentRecords d); try by intros [= _ <-].
    destruct (DataManager.in_attendanceLogs d); by intros [= _ <-].
Qed.

Lemma guarded_calls_fail_cleanly_witness :
  exists st',
    run_guarded Sample.tuesday Sample.roster
      (call_addAttendanceLog {["studentId" := VStr "2024001"]})
    = (Some "studentName is required for attendance log", st') /\
    st' = Sample.roster.
Proof.
  eexists. split; [reflexivity|].
  exact (guarded_calls_fail_cleanly Sample.tuesday Sample.roster _
           (call_addAttendanceLog {["studentId" := VStr "2024001"]})
           "studentName is required for attendance log" eq_refl).
Defined.

Lemma find_deleted_Some
    (e : env) (id : value) (l : list deleted_item) (k : nat)
    (dd : deleted_item) :
  DataManager.find_deleted e id l = Some (k, dd) ->
  exists item, l !! k = Some item /\
               DataManager.restore_candidate e id item = Some dd.
Proof.
  revert k. induction l as [|a l IH]; intros k H; simpl in H; [done|].
  destruct (DataManager.restore_candidate e id a) as [x|] eqn:Ha.
  - injection H as <- <-. by exists a.
  - destruct (DataManager.find_deleted e id l) as [[j y]|]; [|done].
    injection H as <- <-. destruct (IH j eq_refl) as (item & ? & ?).
    by exists item.
Qed.

Lemma splice_back {A : Type} (l : list A) (k : nat) (x : A) :
  l !! k = Some x -> splice_in k x (delete k l) = l.
Proof.
  unfold splice_in. revert k.
  induction l as [|a l IH]; intros [|k] H; simpl in *; try done.
  - injection H as ->. by rewrite drop_0.
  - f_equal. by apply IH.
Qed.





(** ** Deleting *)

Lemma filter_rejected_all {A : Type} (p : A -> bool) (l : list A) (x : A) :
  x ∈ List.filter (fun y => negb (p y)) l -> p x = false.
Proof.
  intros Hx. apply list_elem_of_In, filter_In in Hx as [_ Hx].
  by apply negb_true_iff in Hx.
Qed.





Lemma find_tombstone_Some
    (id : value) (l : list deleted_item) (k : nat) (item : deleted_item) :
  DataManager.find_tombstone id l = DataManager.Completed (Some (k, item)) ->
  l !! k = Some item /\
  (exists s, it_student item = Some s /\ loose_eq (prop s "id") id = true) /\
  (forall j x s, (j < k)%nat -> l !! j = Some x -> it_student x = Some s ->
     loose_eq (prop s "id") id = false).
Proof.
  revert k. induction l as [|a l IH]; intros k H; simpl in H; [done|].
  destruct (it_student a) as [s|] eqn:Hs; [|done].
  destruct (loose_eq (prop s "id") id) eqn:Heq.
  - injection H as <- <-. split; [done|]. split; [eauto|].
    intros j x s' Hj. lia.
  - destruct (DataManager.find_tombstone id l) as [[[j y]|]| |] eqn:Hrest;
      try done.
    injection H as <- <-.
    destruct (IH j eq_refl) as (Hl & Hm & Hbefore).
    split; [done|]. split; [done|].
    intros [|j'] x s' Hj Hx Hs'; simpl in Hx.
    + injection Hx as <-. congruence.
    + apply (Hbefore j' x s'); [lia|done..].
Qed.



(** ** Adding and editing students *)

(** Reading a member of an object literal. *)
Ltac literal_member :=
  unfold prop, literal; cbn [fold_left fst snd];
  repeat (rewrite lookup_insert_ne by discriminate);
  rewrite ?lookup_insert_eq; try reflexivity.

Lemma new_student_id (e : env) (studentData : obj) :
  prop (DataManager.new_student e studentData) "id" = prop studentData "id".
Proof. unfold DataManager.new_student. literal_member. Qed.

Lemma new_student_fullName (e : env) (studentData : obj) :
  prop (DataManager.new_student e studentData) "fullName"
    = prop studentData "fullName".
Proof. unfold DataManager.new_student. literal_member. Qed.

(** Data that passes validation has truthy [id], [fullName] and
    [phoneNumber]. *)
Lemma valid_required (student : obj) :
  CONFIG.isValid (CONFIG.validateStudent student) = true ->
  truthy (prop student "id") = true /\
  truthy (prop student "fullName") = true /\
  truthy (prop student "phoneNumber") = true.
Proof.
  unfold CONFIG.validateStudent, CONFIG.validation_student. simpl.
  unfold CONFIG.field_errors. simpl.
  destruct (truthy (prop student "id")); simpl; [|done].
  destruct (truthy (prop student "fullName")); simpl.
  2:{ by destruct (String.eqb _ _). }
  destruct (truthy (prop student "phoneNumber")); simpl; [done|].
  intros H. exfalso. revert H.
  repeat (match goal with
          | |- context [if ?b then _ else _] => destruct b; simpl
          end); try done.
  all: rewrite ?length_app; simpl; rewrite ?length_app; simpl;
    intros H; apply Nat.eqb_eq in H; lia.
Qed.

(** X7.  [addStudent] on data that passes validation and whose
    identifier no active student answers to (ASCII text in the validated
    fields, identifiers that convert exactly, where validation and [==]
    are the engine's): the new student is appended,
    the store then returns this very student for the identifier, and a
    record answers to the identifier; when none did before, the record is
    a new one, appended, whose eight session slots are all empty. *)
Theorem add_student_then_lookup
    (e : env) (st : DataManager.t) (studentData : obj) :
  CONFIG.ascii_fields studentData = true ->
  converts_exactly (prop studentData "id") = true ->
  DataManager.exact_ids st = true ->
  CONFIG.isValid (CONFIG.validateStudent studentData) = true ->
  DataManager.getStudentById st (prop studentData "id") = None ->
  exists student st',
    DataManager.addStudent e st studentData = (Ok student, st') /\
    DataManager.students st' = DataManager.students st ++ [student] /\
    prop student "id" = prop studentData "id" /\
    prop student "fullName" = prop studentData "fullName" /\
    DataManager.getStudentById st' (prop studentData "id") = Some student /\
    is_Some (DataManager.getStudentRecord st' (prop studentData "id")) /\
    match DataManager.getStudentRecord st (prop studentData "id") with
    | Some r =>
        DataManager.studentRecords st' = DataManager.studentRecords st
    | None =>
        DataManager.studentRecords st'
          = DataManager.studentRecords st
              ++ [DataManager.new_record e student] /\
        forall n, 1 <= n <= CONFIG.maxSessions ->
          rec_sessions (DataManager.new_record e student) !! Z_to_string n
            = Some empty_session
    end /\
    DataManager.attendanceLogs st' = DataManager.attendanceLogs st /\
    DataManager.deletedStudents st' = DataManager.deletedStudents st.
Proof.
  intros _ _ _ Hvalid Hfree.
  destruct (valid_required _ Hvalid) as (Hid & _ & _).
  set (student := DataManager.new_student e studentData).
  assert (prop student "id" = prop studentData "id") as Hsame
    by apply new_student_id.
  assert (DataManager.id_is (prop studentData "id") student = true) as Hhit.
  { unfold DataManager.id_is. rewrite Hsame.
    by apply loose_eq_refl_truthy. }
  unfold DataManager.addStudent. rewrite Hvalid, Hfree. simpl.
  fold student. unfold DataManager.createStudentRecord. simpl.
  rewrite Hsame. unfold DataManager.getStudentRecord.
  rewrite (find_as_indexed _ (DataManager.studentRecords st)).
  apply find_None_indexed in Hfree.
  destruct (find_indexed (DataManager.record_id_is (prop studentData "id"))
              (DataManager.studentRecords st)) as [[j r]|] eqn:Hrec.
  - exists student. eexists. split; [reflexivity|]. simpl.
    split_and!.
    + done.
    + done.
    + apply new_student_fullName.
    + unfold DataManager.getStudentById. simpl.
      rewrite find_as_indexed.
      by rewrite (find_indexed_app_fresh _ _ _ Hfree Hhit).
    + rewrite find_as_indexed, Hrec. by eexists.
    + done.
    + done.
    + done.
  - exists student. eexists. split; [reflexivity|]. simpl.
    split_and!.
    + done.
    + done.
    + apply new_student_fullName.
    + unfold DataManager.getStudentById. simpl.
      rewrite find_as_indexed.
      by rewrite (find_indexed_app_fresh _ _ _ Hfree Hhit).
    + rewrite find_as_indexed.
      rewrite (find_indexed_app_fresh _ _ (DataManager.new_record e student)
                 Hrec).
      * by eexists.
      * unfold DataManager.record_id_is. simpl. rewrite Hsame.
        by apply loose_eq_refl_truthy.
    + done.
    + intros n Hn. by apply init_sessions_slot.
    + done.
    + done.
Qed.

Lemma add_student_then_lookup_witness :
  exists student st',
    DataManager.addStudent Sample.monday DataManager.constructor Sample.ahmed
      = (Ok student, st') /\
    DataManager.getStudentById st' (VStr "2024001") = Some student /\
    is_Some (DataManager.getStudentRecord st' (VStr "2024001")).
Proof.
  destruct (add_student_then_lookup Sample.monday DataManager.constructor
              Sample.ahmed eq_refl eq_refl eq_refl eq_refl eq_refl)
    as (student & st' & Hrun & _ & _ & _ & Hget & Hrec & _).
  exists student, st'. exact (conj Hrun (conj Hget Hrec)).
Defined.

Lemma add_student_cases (e : env) (st : DataManager.t) (studentData : obj) :
  (exists student st',
     DataManager.addStudent e st studentData = (Ok student, st') /\
     DataManager.students st' = DataManager.students st ++ [student] /\
     DataManager.attendanceLogs st' = DataManager.attendanceLogs st /\
     DataManager.deletedStudents st' = DataManager.deletedStudents st) \/
  (exists msg, DataManager.addStudent e st studentData = (Throw msg, st)).
Proof.
  unfold DataManager.addStudent.
  destruct (negb _); [right; eauto|].
  destruct (DataManager.getStudentById _ _); [right; eauto|].
  left. unfold DataManager.createStudentRecord. simpl.
  destruct (find_indexed _ _) as [[j r]|]; by eexists _, _.
Qed.

Lemma add_each_counts
    (clock : nat -> env) (index : nat) (st : DataManager.t)
    (studentsData : list obj) :
  let '(ok, ko, st') := DataManager.add_each clock index st studentsData in
  (List.length ok + List.length ko)%nat = List.length studentsData /\
  List.length (DataManager.students st')
    = (List.length (DataManager.students st) + List.length ok)%nat /\
  DataManager.attendanceLogs st' = DataManager.attendanceLogs st /\
  DataManager.deletedStudents st' = DataManager.deletedStudents st.
Proof.
  revert index st. induction studentsData as [|d rest IH]; intros index st;
    simpl; [by rewrite Nat.add_0_r|].
  destruct (add_student_cases (clock index) st d)
    as [(student & st1 & -> & Hss & Hls & Hds)|(msg & ->)].
  - specialize (IH (S index) st1).
    destruct (DataManager.add_each clock (S index) st1 rest)
      as [[ok ko] st2].
    destruct IH as (Hn & Hlen & Hl & Hd). simpl.
    rewrite Hlen, Hss, length_app, Hl, Hd. simpl. split_and!; [lia|lia|done..].
  - specialize (IH (S index) st).
    destruct (DataManager.add_each clock (S index) st rest)
      as [[ok ko] st2].
    destruct IH as (Hn & Hlen & Hl & Hd). simpl.
    split_and!; [lia|lia|done..].
Qed.

(** X8.  [addMultipleStudents] accounts for every element of the batch
    exactly once, as a success or as a failure, and the number of active
    students grows by the number of successes; the log and the tombstones
    are not touched. *)
Theorem batch_add_accounts_for_every_student
    (clock : nat -> env) (st : DataManager.t) (studentsData : list obj) :
  let run := DataManager.addMultipleStudents clock st studentsData in
  DataManager.total run.1 = List.length studentsData /\
  (List.length (DataManager.successful run.1)
     + List.length (DataManager.failed run.1))%nat
    = DataManager.total run.1 /\
  List.length (DataManager.students run.2)
    = (List.length (DataManager.students st)
       + List.length (DataManager.successful run.1))%nat /\
  DataManager.attendanceLogs run.2 = DataManager.attendanceLogs st /\
  DataManager.deletedStudents run.2 = DataManager.deletedStudents st.
Proof.
  unfold DataManager.addMultipleStudents.
  pose proof (add_each_counts clock 0 st studentsData) as H.
  destruct (DataManager.add_each clock 0 st studentsData) as [[ok ko] st'].
  destruct H as (Hn & Hlen & Hl & Hd). simpl. by split_and!.
Qed.

(** X9.  [updateStudent], whether it succeeds or throws, never adds or
    removes a student or a record, never changes the identifier or the
    sessions of any record, and never touches the log or the
    tombstones. *)
Theorem update_student_keeps_attendance_data
    (e : env) (st : DataManager.t) (id : value) (updates : obj) :
  let st' := (DataManager.updateStudent e st id updates).2 in
  List.length (DataManager.students st')
    = List.length (DataManager.students st) /\
  rec_id <$> DataManager.studentRecords st'
    = rec_id <$> DataManager.studentRecords st /\
  rec_sessions <$> DataManager.studentRecords st'
    = rec_sessions <$> DataManager.studentRecords st /\
  DataManager.attendanceLogs st' = DataManager.attendanceLogs st /\
  DataManager.deletedStudents st' = DataManager.deletedStudents st.
Proof.
  unfold DataManager.updateStudent.
  destruct (find_indexed _ (DataManager.students st)) as [[i current]|];
    [|done].
  destruct (negb _); [done|]. simpl.
  destruct (find_indexed _ (DataManager.studentRecords st)) as [[j r]|] eqn:Hr;
    simpl.
  - apply find_indexed_Some in Hr as (Hj & _ & _).
    rewrite length_insert, !list_fmap_insert. simpl.
    rewrite !list_insert_id; [done|..]; by rewrite list_lookup_fmap, Hj.
  - by rewrite length_insert.
Qed.



(** X11.  The range check of [updateStudentSession] lets through every
    session number that does not convert to a number ([NaN], [undefined],
    an ASCII string that is no numeric literal of the engine): for a
    student whose record exists (identifiers in the range where [==] is
    the engine's) the call succeeds and writes a slot under
    the property name the value prints as, leaving the other slots as
    they were. *)
Theorem unparsable_session_number_is_written
    (e : env) (st : DataManager.t) (studentId sessionNumber : value)
    (sessionData : obj) (i : nat) (record : student_record) :
  converts_exactly studentId = true ->
  DataManager.exact_ids st = true ->
  find_indexed (DataManager.record_id_is studentId)
               (DataManager.studentRecords st) = Some (i, record) ->
  converts_exactly sessionNumber = true ->
  to_number sessionNumber = None ->
  exists record',
    DataManager.updateStudentSession e st studentId sessionNumber sessionData
      = (Ok record',
         DataManager.with_records st
           (<[i := record']> (DataManager.studentRecords st))) /\
    rec_sessions record' !! to_string sessionNumber
      = Some (DataManager.merge_session e
                (slot_of record (to_string sessionNumber)) sessionData) /\
    (forall key, key <> to_string sessionNumber ->
       rec_sessions record' !! key = rec_sessions record !! key).
Proof.
  intros _ _ Hfound _ Hnan. eexists. split.
  - apply update_located; [done|].
    unfold lt_num, gt_num. by rewrite Hnan.
  - simpl. split.
    + by rewrite lookup_insert_eq.
    + intros key Hkey. by rewrite lookup_insert_ne.
Qed.

Lemma unparsable_session_number_is_written_witness :
  exists record',
    (DataManager.updateStudentSession Sample.tuesday Sample.roster
       (VStr "2024001") (VStr "first") {["attendance" := VStr "present"]}).1
      = Ok record' /\
    is_Some (rec_sessions record' !! "first").
Proof.
  assert (DataManager.exact_ids Sample.roster = true) as Hexact
    by (vm_compute; reflexivity).
  destruct (unparsable_session_number_is_written Sample.tuesday Sample.roster
              (VStr "2024001") (VStr "first")
              {["attendance" := VStr "present"]}
              0%nat
              (DataManager.new_record Sample.monday
                 (DataManager.new_student Sample.monday Sample.ahmed))
              eq_refl Hexact eq_refl eq_refl eq_refl)
    as (record' & Hrun & Hslot & _).
  exists record'. split; [by rewrite Hrun|]. by eexists.
Defined.

(** ** Repairing imported tombstones *)


Lemma truthy_or_r (a b : value) : truthy b = true -> truthy (js_or a b) = true.
Proof. unfold js_or. by destruct (truthy a) eqn:Ha. Qed.

Lemma repair_item_shape (e : env) (item item' : deleted_item) :
  now_iso e <> EmptyString ->
  DataManager.repair_item e item = Some item' ->
  is_Some (it_student item') /\
  truthy (prop (it_members item') "deletedAt") = true.
Proof.
  intros Hnow. unfold DataManager.repair_item.
  assert (truthy (VStr (now_iso e)) = true) as Hclock.
  { simpl. by destruct (String.eqb_spec (now_iso e) EmptyString). }
  assert (forall a, prop (literal [("deletedAt", a);
                                   ("deletedBy", VStr "imported")])
                      "deletedAt" = a) as Hread.
  { intros a. literal_member. }
  assert (forall a b, prop (literal [("deletedAt", a); ("deletedBy", b)])
                        "deletedAt" = a) as Hread'.
  { intros a b. literal_member. }
  set (m := it_members item).
  destruct (match it_student item with Some _ => true | None => false end
            && truthy (prop m "deletedAt")) eqn:Hkeep.
  { intros H. apply (inj Some) in H. subst item'.
    apply andb_true_iff in Hkeep as [Hs Hd]. split; [|done].
    by destruct (it_student item). }
  destruct (truthy (prop m "id") && truthy (prop m "fullName")).
  { intros H. apply (inj Some) in H. subst item'. simpl.
    split; [eauto|]. by rewrite Hread'. }
  destruct (truthy (prop (default m (it_student item)) "id")); [|done].
  intros H. apply (inj Some) in H. subst item'. simpl.
  split; [eauto|]. rewrite Hread'. by apply truthy_or_r.
Qed.

Lemma repair_item_fixed (e : env) (item : deleted_item) :
  is_Some (it_student item) ->
  truthy (prop (it_members item) "deletedAt") = true ->
  DataManager.repair_item e item = Some item.
Proof.
  intros [s Hs] Hd. unfold DataManager.repair_item. by rewrite Hs, Hd.
Qed.

Lemma omap_shrinks {A B : Type} (f : A -> option B) (l : list A) :
  (List.length (omap f l) <= List.length l)%nat.
Proof.
  induction l as [|a l IH]; csimpl; [done|].
  destruct (f a); csimpl; lia.
Qed.

(** X12.  After [validateAndFixDeletedStudentsStructure] every element of
    the deleted list has a student object and a truthy [deletedAt], no
    element was added, and a second pass (at any later time) changes
    nothing. *)
Theorem tombstone_repair_is_idempotent
    (e e' : env) (st : DataManager.t) :
  now_iso e <> EmptyString ->
  let st1 := DataManager.validateAndFixDeletedStudentsStructure e st in
  (forall item, item ∈ DataManager.deletedStudents st1 ->
     is_Some (it_student item) /\
     truthy (prop (it_members item) "deletedAt") = true) /\
  (List.length (DataManager.deletedStudents st1)
     <= List.length (DataManager.deletedStudents st))%nat /\
  DataManager.validateAndFixDeletedStudentsStructure e' st1 = st1 /\
  DataManager.students st1 = DataManager.students st /\
  DataManager.studentRecords st1 = DataManager.studentRecords st /\
  DataManager.attendanceLogs st1 = DataManager.attendanceLogs st.
Proof.
  intros Hnow st1.
  assert (forall item, item ∈ DataManager.deletedStudents st1 ->
            is_Some (it_student item) /\
            truthy (prop (it_members item) "deletedAt") = true) as Hshape.
  { intros item Hitem. unfold st1 in Hitem. simpl in Hitem.
    apply list_elem_of_omap in Hitem as (x & _ & Hx).
    by apply (repair_item_shape e x). }
  split; [exact Hshape|]. split_and!; try done.
  - unfold st1. simpl. apply omap_shrinks.
  - unfold DataManager.validateAndFixDeletedStudentsStructure at 1.
    assert (omap (DataManager.repair_item e')
                 (DataManager.deletedStudents st1)
            = DataManager.deletedStudents st1) as ->.
    { revert Hshape. generalize (DataManager.deletedStudents st1).
      induction l as [|a l IH]; intros H; simpl; [done|].
      destruct (H a) as [Hs Hd]; [by left|].
      rewrite (repair_item_fixed e' a Hs Hd). f_equal.
      apply IH. intros item Hitem. apply H. by right. }
    by destruct st1.
Qed.

Lemma tombstone_repair_is_idempotent_witness :
  let st1 :=
    DataManager.validateAndFixDeletedStudentsStructure Sample.monday
      Sample.roster_reused in
  DataManager.validateAndFixDeletedStudentsStructure Sample.tuesday st1 = st1.
Proof.
  exact (proj1 (proj2 (proj2
    (tombstone_repair_is_idempotent Sample.monday Sample.tuesday
       Sample.roster_reused ltac:(discriminate))))).
Defined.

(** ** Pushing the whole data set *)

(** X13.  A whole-data-set push: what [sendDataUpdate] emits replaces the
    server's data set whatever it held, is broadcast to the other clients
    (the sender gets a confirmation only), and a client that applies the
    broadcast with [handleDataSync] then holds exactly the four arrays of
    the sender, whatever it held before. *)
Theorem push_reaches_other_clients
    (c : SyncClient.t) (sender other : DataManager.t) (e : env)
    (served : Server.appData) (data : Server.appData) :
  SyncClient.sendDataUpdate c sender = Some data ->
  let run := Server.on_data_update e served data in
  run.2 = [Server.to_others (Server.data_sync run.1);
           Server.to_sender (Server.update_confirmed (VStr (now_iso e)))] /\
  Server.students run.1 = Array (DataManager.students sender) /\
  Server.attendanceLogs run.1 = Array (DataManager.attendanceLogs sender) /\
  Server.lastUpdated run.1 = VStr (now_iso e) /\
  SyncClient.handleDataSync other run.1 = Some sender.
Proof.
  unfold SyncClient.sendDataUpdate.
  destruct (negb _ || negb _); [done|]. intros [= <-]. simpl.
  split_and!; try done. by destruct sender.
Qed.

Lemma push_reaches_other_clients_witness :
  exists data,
    SyncClient.sendDataUpdate Sample.online Sample.roster_logged = Some data /\
    SyncClient.handleDataSync Sample.roster_reused
      (Server.on_data_update Sample.tuesday Sample.served data).1
      = Some Sample.roster_logged.
Proof.
  eexists. split; [reflexivity|].
  exact (proj2 (proj2 (proj2 (proj2
    (push_reaches_other_clients Sample.online Sample.roster_logged
       Sample.roster_reused Sample.tuesday Sample.served _ eq_refl))))).
Defined.

(** ** Scanning twice *)

Lemma adopted_id (e : env) (client_copy : obj) :
  prop (Server.adopted e client_copy) "id" = prop client_copy "id".
Proof. unfold prop. by rewrite adopted_members. Qed.

(** X14.  Adoption happens once when the scanned identifier is the
    identifier of the student object sent with it: a second [qr-scan]
    with the same message finds the adopted student, answers with it and
    leaves the data set as the first scan left it. *)
Theorem adoption_happens_once
    (e e' : env) (st : Server.appData) (data : Server.qr_scan)
    (client_copy : obj) (ss : list obj) (rs : list student_record) :
  Server.students st = Array ss ->
  Server.studentRecords st = Array rs ->
  find (Server.student_id_is (Server.qr_studentId data)) ss = None ->
  Server.qr_student data = Some client_copy ->
  prop client_copy "id" = Server.qr_studentId data ->
  strict_eq (Server.qr_studentId data) (Server.qr_studentId data) = true ->
  let first := Server.on_qr_scan e st data in
  Server.students first.1.1 = Array (ss ++ [Server.adopted e client_copy]) /\
  Server.on_qr_scan e' first.1.1 data
    = (first.1.1,
       Server.accept_scan e' (Server.adopted e client_copy),
       Server.Returned).
Proof.
  intros Hss Hrs Hmiss Hcopy Hid Hrefl first.
  assert (Server.student_id_is (Server.qr_studentId data)
            (Server.adopted e client_copy) = true) as Hhit.
  { unfold Server.student_id_is. by rewrite adopted_id, Hid. }
  assert (Server.students first.1.1
          = Array (ss ++ [Server.adopted e client_copy])) as Hafter.
  { unfold first, Server.on_qr_scan. rewrite Hss, Hmiss, Hcopy. simpl.
    rewrite Hrs. by destruct (find _ rs). }
  split; [exact Hafter|].
  unfold Server.on_qr_scan at 1. rewrite Hafter.
  apply find_None_indexed in Hmiss.
  rewrite find_as_indexed, (find_indexed_app_fresh _ _ _ Hmiss Hhit).
  done.
Qed.

Lemma adoption_happens_once_witness :
  let data := {| Server.qr_studentId := VStr "2024001";
                 Server.qr_student := Some Sample.ahmed |} in
  let first :=
    Server.on_qr_scan Sample.monday (Server.initial Sample.monday) data in
  (Server.on_qr_scan Sample.tuesday first.1.1 data).1.1 = first.1.1.
Proof.
  intros data first.
  destruct (adoption_happens_once Sample.monday Sample.tuesday
              (Server.initial Sample.monday) data Sample.ahmed [] []
              eq_refl eq_refl eq_refl eq_refl eq_refl eq_refl)
    as [_ Hagain].
  fold first in Hagain. by rewrite Hagain.
Defined.

(** X15.  Adoption is repeated when the student object sent with the scan
    carries an identifier other than the scanned one: the copy is stored
    under its own identifier, so the scanned identifier is still unknown
    afterwards and a second scan with the same message appends a second
    copy. *)
Theorem mismatched_scan_is_adopted_again
    (e e' : env) (st : Server.appData) (data : Server.qr_scan)
    (client_copy : obj) (ss : list obj) (rs : list student_record) :
  Server.students st = Array ss ->
  Server.studentRecords st = Array rs ->
  find (Server.student_id_is (Server.qr_studentId data)) ss = None ->
  Server.qr_student data = Some client_copy ->
  strict_eq (prop client_copy "id") (Server.qr_studentId data) = false ->
  let first := Server.on_qr_scan e st data in
  let second := Server.on_qr_scan e' first.1.1 data in
  Server.students second.1.1
    = Array (ss ++ [Server.adopted e client_copy;
                    Server.adopted e' client_copy]).
Proof.
  intros Hss Hrs Hmiss Hcopy Hid first second.
  assert (exists rs1,
            Server.students first.1.1
              = Array (ss ++ [Server.adopted e client_copy]) /\
            Server.studentRecords first.1.1 = Array rs1) as (rs1 & H1 & H1r).
  { unfold first, Server.on_qr_scan. rewrite Hss, Hmiss, Hcopy. simpl.
    rewrite Hrs. destruct (find _ rs); simpl; eauto. }
  assert (find (Server.student_id_is (Server.qr_studentId data))
               (ss ++ [Server.adopted e client_copy]) = None) as Hmiss1.
  { apply find_None_indexed, find_indexed_None. intros x Hx.
    apply elem_of_app in Hx as [Hx|Hx].
    - apply find_None_indexed in Hmiss.
      by apply (proj1 (find_indexed_None _ _) Hmiss).
    - apply list_elem_of_singleton in Hx as ->.
      unfold Server.student_id_is. by rewrite adopted_id. }
  unfold second, Server.on_qr_scan. rewrite H1, Hmiss1, Hcopy. simpl.
  rewrite H1r. rewrite <- app_assoc. by destruct (find _ rs1).
Qed.

Lemma mismatched_scan_is_adopted_again_witness :
  let data := {| Server.qr_studentId := VStr "2024002";
                 Server.qr_student := Some Sample.ahmed |} in
  let first :=
    Server.on_qr_scan Sample.monday (Server.initial Sample.monday) data in
  Server.students (Server.on_qr_scan Sample.tuesday first.1.1 data).1.1
    = Array [Server.adopted Sample.monday Sample.ahmed;
             Server.adopted Sample.tuesday Sample.ahmed].
Proof.
  intros data first.
  exact (mismatched_scan_is_adopted_again Sample.monday Sample.tuesday
           (Server.initial Sample.monday) data Sample.ahmed [] []
           eq_refl eq_refl eq_refl eq_refl eq_refl).
Defined.

(** ** Reading the log *)

Lemma filter_step_elem
    (filters : obj) (k : string) (test : value -> log_entry -> bool)
    (logs : list log_entry) (l : log_entry) :
  l ∈ DataManager.filter_step filters k test logs <->
  l ∈ logs /\ (truthy (prop filters k) = true -> test (prop filters k) l = true).
Proof.
  unfold DataManager.filter_step. destruct (truthy (prop filters k)).
  - rewrite list_elem_of_In, filter_In, <- list_elem_of_In.
    split; intros [? ?]; split; auto.
  - split; [intros ?; split; [done|discriminate]|by intros [? _]].
Qed.

Lemma filter_step_shrinks
    (filters : obj) (k : string) (test : value -> log_entry -> bool)
    (logs : list log_entry) :
  (List.length (DataManager.filter_step filters k test logs)
     <= List.length logs)%nat.
Proof.
  unfold DataManager.filter_step. destruct (truthy _); [|done].
  apply filter_length_le.
Qed.


Lemma disjoint_filters_bound {A : Type} (p q : A -> bool) (l : list A) :
  (forall x, p x = true -> q x = false) ->
  (List.length (List.filter p l) + List.length (List.filter q l)
     <= List.length l)%nat.
Proof.
  intros Hpq. induction l as [|a l IH]; simpl; [done|].
  destruct (p a) eqn:Hp; simpl.
  - rewrite (Hpq a Hp). lia.
  - destruct (q a); simpl; lia.
Qed.

(** X17.  In [getStatistics] the numbers of today's present and absent
    marks together never exceed the number of log entries reported as
    [totalRecords]. *)
Theorem statistics_today_bounded (e : env) (st : DataManager.t) :
  let s := DataManager.getStatistics e st in
  (DataManager.todayPresent s + DataManager.todayAbsent s
     <= DataManager.totalRecords s)%nat /\
  DataManager.totalRecords s = List.length (DataManager.attendanceLogs st) /\
  DataManager.totalStudents s = List.length (DataManager.students st).
Proof.
  simpl. split; [|done].
  etransitivity.
  - apply disjoint_filters_bound. intros x.
    destruct (log_attendance x); simpl; try done.
    intros H. apply String.eqb_eq in H. by subst.
  - unfold DataManager.getTodayAttendance, DataManager.getAttendanceLogs.
    repeat (etransitivity; [apply filter_step_shrinks|]). done.
Qed.

(** ** Session names *)


(** ** The server's handlers *)

(** X19.  The server's [add-student] performs no validation: any payload
    whose identifier is not strictly equal to that of a stored student is
    stored with the time of the call, together with a record of eight
    empty sessions, and announced to every client.  Sending the same
    payload again is refused and changes nothing, provided the identifier
    is strictly equal to itself. *)
Theorem server_add_then_retry
    (e e' : env) (st : Server.appData) (studentData : obj)
    (ss : list obj) (rs : list student_record) :
  Server.students st = Array ss ->
  Server.studentRecords st = Array rs ->
  existsb (Server.student_id_is (prop studentData "id")) ss = false ->
  strict_eq (prop studentData "id") (prop studentData "id") = true ->
  let first := Server.on_add_student e st studentData in
  exists stored,
    prop stored "id" = prop studentData "id" /\
    stored !! "createdAt" = Some (VStr (now_iso e)) /\
    first.2 = [Server.to_all (Server.data_sync first.1);
               Server.to_sender
                 (Server.operation_success_student "add-student" stored)] /\
    Server.students first.1 = Array (ss ++ [stored]) /\
    Server.studentRecords first.1
      = Array (rs ++ [Server.add_student_record e stored]) /\
    (forall n, 1 <= n <= 8 ->
       rec_sessions (Server.add_student_record e stored) !! Z_to_string n
         = Some empty_session) /\
    Server.on_add_student e' first.1 studentData
      = (first.1,
         [Server.to_sender
            (Server.operation_error "add-student"
               (Server.Message
                  ("Student with ID " +:+ to_string (prop studentData "id")
                     +:+ " already exists")))]).
Proof.
  intros Hss Hrs Hfresh Hrefl first.
  set (stored :=
         <["updatedAt" := VStr (now_iso e)]>
           (<["createdAt" := VStr (now_iso e)]> studentData)).
  assert (prop stored "id" = prop studentData "id") as Hid.
  { unfold prop, stored. by rewrite !lookup_insert_ne. }
  assert (first =
            (Server.with_records
               (Server.with_lastUpdated
                  (Server.with_students st (Array (ss ++ [stored])))
                  (VStr (now_iso e)))
               (Array (rs ++ [Server.add_student_record e stored])),
             [Server.to_all
                (Server.data_sync
                   (Server.with_records
                      (Server.with_lastUpdated
                         (Server.with_students st (Array (ss ++ [stored])))
                         (VStr (now_iso e)))
                      (Array (rs ++ [Server.add_student_record e stored]))));
              Server.to_sender
                (Server.operation_success_student "add-student" stored)]))
    as ->.
  { unfold first, Server.on_add_student. rewrite Hss, Hfresh. simpl.
    by rewrite Hrs. }
  exists stored. simpl. split_and!; try done.
  - unfold stored. rewrite lookup_insert_ne by done.
    by rewrite lookup_insert_eq.
  - intros n Hn. by apply init_sessions_slot.
  - unfold Server.on_add_student. simpl.
    rewrite existsb_app. simpl. unfold Server.student_id_is at 2.
    by rewrite Hid, Hrefl, orb_true_r.
Qed.

Lemma server_add_then_retry_witness :
  let nameless : obj := {["fullName" := VStr "No Identifier"]} in
  let first :=
    Server.on_add_student Sample.monday (Server.initial Sample.monday)
      nameless in
  event_names first.2 = ["data-sync"; "operation-success"] /\
  (Server.on_add_student Sample.tuesday first.1 nameless).1 = first.1.
Proof.
  intros nameless first.
  assert (strict_eq (prop nameless "id") (prop nameless "id") = true)
    as Hrefl by (vm_compute; reflexivity).
  destruct (server_add_then_retry Sample.monday Sample.tuesday
              (Server.initial Sample.monday) nameless [] []
              eq_refl eq_refl eq_refl Hrefl)
    as (stored & _ & _ & Hout & _ & _ & _ & Hretry).
  fold first in Hout, Hretry. split.
  - by rewrite Hout.
  - by rewrite Hretry.
Defined.

(** X20.  The server's [mark-attendance] replaces the whole slot of the
    record it finds: the slot then has exactly the members [attendance],
    [homework], [quiz] and [date], each read from the payload (a member
    the payload lacks reads [undefined], the date falls back to the date
    of the day), whatever the slot held before; the other slots of the
    record are untouched. *)
Theorem server_mark_replaces_slot
    (e : env) (st : Server.appData) (attendanceData : obj)
    (rs : list student_record) (ls : list log_entry)
    (i : nat) (r : student_record) :
  Server.studentRecords st = Array rs ->
  Server.attendanceLogs st = Array ls ->
  find_indexed (Server.record_id_is (prop attendanceData "studentId")) rs
    = Some (i, r) ->
  let key := to_string (prop attendanceData "session") in
  exists r',
    Server.studentRecords (Server.on_mark_attendance e st attendanceData).1
      = Array (<[i := r']> rs) /\
    rec_id r' = rec_id r /\
    (forall key', key' <> key ->
       rec_sessions r' !! key' = rec_sessions r !! key') /\
    slot_of r' key !! "attendance" = Some (prop attendanceData "attendance") /\
    slot_of r' key !! "homework" = Some (prop attendanceData "homework") /\
    slot_of r' key !! "quiz" = Some (prop attendanceData "quiz") /\
    slot_of r' key !! "date"
      = Some (js_or (prop attendanceData "date") (VStr (today e))) /\
    (forall k, k <> "attendance" -> k <> "homework" -> k <> "quiz" ->
       k <> "date" -> slot_of r' key !! k = None).
Proof.
  intros Hrs Hls Hfound key.
  exists (Server.set_session e attendanceData r). split.
  - unfold Server.on_mark_attendance. rewrite Hrs, Hfound. simpl.
    rewrite Hls. by destruct (find_indexed _ ls) as [[??]|].
  - unfold slot_of. simpl. split; [done|]. split.
    + intros key' Hne. by rewrite lookup_insert_ne.
    + rewrite lookup_insert_eq. simpl.
      unfold Server.session_of, literal. cbn [fold_left fst snd].
      split_and!.
      * by rewrite !lookup_insert_ne, lookup_insert_eq by done.
      * by rewrite !lookup_insert_ne, lookup_insert_eq by done.
      * by rewrite !lookup_insert_ne, lookup_insert_eq by done.
      * by rewrite lookup_insert_eq.
      * intros k H1 H2 H3 H4. by rewrite !lookup_insert_ne by done.
Qed.

Lemma server_mark_replaces_slot_witness :
  exists r',
    Server.studentRecords
      (Server.on_mark_attendance Sample.tuesday Sample.served
         (literal [("studentId", VStr "2024001"); ("session", VNum 1);
                   ("attendance", VStr "absent")])).1
      = Array [r'] /\
    slot_of r' "1" !! "homework" = Some VUndef.
Proof.
  destruct (server_mark_replaces_slot Sample.tuesday Sample.served
              (literal [("studentId", VStr "2024001"); ("session", VNum 1);
                        ("attendance", VStr "absent")])
              [Server.add_student_record Sample.monday
                 (<["updatedAt" := VStr (now_iso Sample.monday)]>
                    (<["createdAt" := VStr (now_iso Sample.monday)]>
                       Sample.ahmed))]
              [] 0%nat _ eq_refl eq_refl eq_refl)
    as (r' & Hrun & _ & _ & _ & Hhw & _).
  exists r'. exact (conj Hrun Hhw).
Defined.

(** ** The suggested identifier is free *)

Lemma digit_char_facts (c : ascii) :
  is_digit c = true ->
  (exists d, digit_in 10 c = Some d) /\
  is_space c = false /\
  Ascii.eqb c "-" = false /\ Ascii.eqb c "+" = false /\
  Ascii.eqb c "x" = false /\ Ascii.eqb c "X" = false /\
  Ascii.eqb c "o" = false /\ Ascii.eqb c "O" = false /\
  Ascii.eqb c "b" = false /\ Ascii.eqb c "B" = false.
Proof.
  destruct c as [[] [] [] [] [] [] [] []]; vm_compute; intros H;
    try discriminate H; repeat split; eauto.
Qed.

Lemma append_nil (s : string) : EmptyString +:+ s = s.
Proof. reflexivity. Qed.

Lemma append_cons (c : ascii) (a b : string) :
  String c a +:+ b = String c (a +:+ b).
Proof. reflexivity. Qed.

Ltac step_append := rewrite ?append_cons, ?append_nil; simpl.

Lemma append_assoc (a b c : string) : (a +:+ b) +:+ c = a +:+ (b +:+ c).
Proof. induction a; step_append; congruence. Qed.

Lemma rev_string_append (acc s : string) :
  rev_string acc s = rev_string EmptyString s +:+ acc.
Proof.
  revert acc. induction s as [|c s IH]; intros acc; simpl; [done|].
  rewrite (IH (String c acc)), (IH (String c EmptyString)).
  rewrite append_assoc. done.
Qed.

Lemma append_empty_r (s : string) : s +:+ EmptyString = s.
Proof. induction s; step_append; congruence. Qed.

Lemma rev_string_of_append (a b : string) :
  rev_string EmptyString (a +:+ b)
    = rev_string EmptyString b +:+ rev_string EmptyString a.
Proof.
  induction a as [|c a IH]; step_append.
  - by rewrite append_empty_r.
  - rewrite (rev_string_append (String c EmptyString) (a +:+ b)), IH.
    rewrite (rev_string_append (String c EmptyString) a).
    by rewrite append_assoc.
Qed.

Lemma rev_string_involutive (s : string) :
  rev_string EmptyString (rev_string EmptyString s) = s.
Proof.
  induction s as [|c s IH]; simpl; [done|].
  rewrite (rev_string_append (String c EmptyString) s).
  rewrite rev_string_of_append, IH. done.
Qed.

Lemma forallb_string_append (p : ascii -> bool) (a b : string) :
  forallb_string p (a +:+ b) = forallb_string p a && forallb_string p b.
Proof.
  induction a as [|c a IH]; step_append; [done|].
  by rewrite IH, andb_assoc.
Qed.

Lemma forallb_string_rev (p : ascii -> bool) (s : string) :
  forallb_string p (rev_string EmptyString s) = forallb_string p s.
Proof.
  induction s as [|c s IH]; simpl; [done|].
  rewrite (rev_string_append (String c EmptyString) s).
  rewrite forallb_string_append, IH. step_append.
  by rewrite andb_true_r, andb_comm.
Qed.

Lemma rev_string_empty (s : string) :
  rev_string EmptyString s = EmptyString -> s = EmptyString.
Proof.
  intros H. rewrite <- (rev_string_involutive s), H. done.
Qed.

Lemma substring_whole (s : string) : substring 0 (String.length s) s = s.
Proof. induction s; simpl; congruence. Qed.

Lemma split_all_digits (s : string) :
  forallb_string is_digit s = true ->
  exists ds, split_digits 10 s = (ds, EmptyString) /\
             List.length ds = String.length s.
Proof.
  induction s as [|c s IH]; simpl; [by exists []|].
  intros H. apply andb_true_iff in H as [Hc Hs].
  destruct (digit_char_facts c Hc) as ([d Hd] & _).
  destruct (IH Hs) as (ds & Hsplit & Hlen).
  rewrite Hd, Hsplit. exists (d :: ds). by rewrite <- Hlen.
Qed.

Lemma all_digits_string_spec (s : string) :
  all_digits_string s = true ->
  exists c rest, s = String c rest /\ is_digit c = true /\
                 forallb_string is_digit rest = true.
Proof.
  unfold all_digits_string. destruct s as [|c rest]; [done|]. simpl.
  intros H. apply andb_true_iff in H as [Hc Hr]. by exists c, rest.
Qed.

Lemma all_digits_forall (s : string) :
  all_digits_string s = true -> forallb_string is_digit s = true.
Proof. unfold all_digits_string. intros H. by apply andb_true_iff in H as [_ ?]. Qed.

Lemma trailing_digits_all (s : string) :
  all_digits_string s = true -> trailing_digits s = Some s.
Proof.
  intros Hs. pose proof (all_digits_forall s Hs) as Hall.
  unfold trailing_digits.
  destruct (split_all_digits (rev_string EmptyString s)) as (ds & Hsplit & Hlen);
    [by rewrite forallb_string_rev|].
  rewrite Hsplit. destruct ds as [|d ds].
  - simpl in Hlen. destruct (rev_string EmptyString s) eqn:Hr; [|done].
    apply rev_string_empty in Hr. subst. done.
  - rewrite Hlen, substring_whole, rev_string_involutive. done.
Qed.

Lemma parse_all_digits (s : string) :
  all_digits_string s = true ->
  parse_int_string s = Some (numeral_value s).
Proof.
  intros Hs. pose proof (all_digits_forall s Hs) as Hall.
  destruct (all_digits_string_spec s Hs) as (c & rest & -> & Hc & Hrest).
  destruct (digit_char_facts c Hc)
    as (_ & Hsp & Hm & Hp & Hx & HX & _).
  destruct (split_all_digits _ Hall) as (ds & Hsplit & Hlen).
  assert (strip_radix_prefix "x" "X" (String c rest) = None) as Hstrip.
  { unfold strip_radix_prefix.
    destruct (Ascii.eqb_spec c "0"); [|by destruct c as [[] [] [] [] [] [] [] []]].
    subst. destruct rest as [|c' rest']; [done|]. simpl in Hrest.
    apply andb_true_iff in Hrest as [Hc' _].
    destruct (digit_char_facts c' Hc') as (_ & _ & _ & _ & Hx' & HX' & _).
    by rewrite Hx', HX'. }
  unfold parse_int_string, numeral_value.
  simpl trim_left. rewrite Hsp, Hm, Hp, Hstrip, Hsplit.
  destruct ds as [|d ds]; [done|done].
Qed.

Lemma trim_all_digits (s : string) :
  all_digits_string s = true -> trim s = s.
Proof.
  intros Hs. pose proof (all_digits_forall s Hs) as Hall.
  assert (forall t, all_digits_string t = true -> trim_left t = t) as Hleft.
  { intros t Ht.
    destruct (all_digits_string_spec t Ht) as (c & rest & -> & Hc & _).
    destruct (digit_char_facts c Hc) as (_ & Hsp & _). simpl. by rewrite Hsp. }
  unfold trim, trim_right. rewrite (Hleft s Hs).
  rewrite Hleft; [apply rev_string_involutive|].
  unfold all_digits_string. rewrite forallb_string_rev, Hall, andb_true_r.
  destruct (String.eqb_spec (rev_string EmptyString s) EmptyString) as [He|];
    [|done].
  apply rev_string_empty in He. by subst.
Qed.

Lemma str_to_number_all_digits (s : string) :
  all_digits_string s = true ->
  str_to_number s = Some (numeral_value s).
Proof.
  intros Hs. pose proof (all_digits_forall s Hs) as Hall.
  unfold str_to_number. rewrite (trim_all_digits s Hs).
  destruct (all_digits_string_spec s Hs) as (c & rest & -> & Hc & Hrest).
  destruct (digit_char_facts c Hc)
    as (_ & Hsp & Hm & Hp & _).
  destruct (split_all_digits _ Hall) as (ds & Hsplit & Hlen).
  assert (forall lower upper,
            is_digit lower = false -> is_digit upper = false ->
            strip_radix_prefix lower upper (String c rest) = None) as Hstrip.
  { intros lower upper Hl Hu. unfold strip_radix_prefix.
    destruct (Ascii.eqb_spec c "0");
      [|by destruct c as [[] [] [] [] [] [] [] []]].
    subst. destruct rest as [|c' rest']; [done|]. simpl in Hrest.
    apply andb_true_iff in Hrest as [Hc' _].
    destruct (Ascii.eqb_spec c' lower) as [->|]; [congruence|].
    destruct (Ascii.eqb_spec c' upper) as [->|]; [congruence|]. done. }
  rewrite !Hstrip by done. rewrite Hm, Hp.
  unfold all_digits, numeral_value. rewrite Hsplit. simpl.
  destruct ds as [|d ds]; [done|done].
Qed.

Lemma numeral_digits (d : Decimal.uint) :
  forallb_string is_digit (NilEmpty.string_of_uint d) = true.
Proof. induction d; simpl; done. Qed.

Lemma numeral_all_digits (z : Z) :
  0 <= z -> all_digits_string (Z_to_string z) = true.
Proof.
  intros Hz. destruct z as [|p|p]; [done| |lia].
  unfold Z_to_string, all_digits_string. simpl.
  unfold NilZero.string_of_uint.
  pose proof (DecimalPos.Unsigned.to_uint_nonnil p) as Hnil.
  pose proof (numeral_digits (Pos.to_uint p)) as Hd.
  destruct (Pos.to_uint p) eqn:Hp; [done|..]; rewrite <- Hp in *;
    rewrite Hd, andb_true_r; rewrite Hp; done.
Qed.

Lemma numeral_value_numeral (z : Z) :
  0 <= z -> numeral_value (Z_to_string z) = z.
Proof.
  intros Hz.
  pose proof (parse_all_digits _ (numeral_all_digits z Hz)) as H.
  rewrite parse_int_string_numeral in H. by injection H.
Qed.

Lemma repeat_zero_digits (k : nat) (s : string) :
  all_digits_string s = true ->
  all_digits_string (repeat_char "0" k +:+ s) = true /\
  numeral_value (repeat_char "0" k +:+ s) = numeral_value s.
Proof.
  intros Hs. induction k as [|k [IHa IHv]]; simpl; step_append; [done|]. split.
  - unfold all_digits_string in *. simpl.
    by apply andb_true_iff in IHa as [_ ->].
  - rewrite <- IHv. unfold numeral_value. simpl.
    by destruct (split_digits 10 (repeat_char "0" k +:+ s)).
Qed.

Lemma digits_acc_mono (ds : list N) (a b : N) :
  (a <= b)%N ->
  (fold_left (fun acc d => acc * 10 + d) ds a
     <= fold_left (fun acc d => acc * 10 + d) ds b)%N.
Proof.
  revert a b. induction ds as [|d ds IH]; intros a b Hab; simpl; [done|].
  apply IH. lia.
Qed.

Lemma prefix_2024_digits (s : string) :
  all_digits_string s = true ->
  all_digits_string ("2024" +:+ s) = true /\
  numeral_value s <= numeral_value ("2024" +:+ s).
Proof.
  intros Hs. split.
  - unfold all_digits_string in *. step_append.
    by apply andb_true_iff in Hs as [_ ->].
  - unfold numeral_value. step_append.
    destruct (split_digits 10 s) as [ds tl]. simpl.
    apply N2Z.inj_le. unfold digits_to_N. simpl.
    apply digits_acc_mono. lia.
Qed.

Lemma format_like_digits (lastStudentId : string) (nextId : Z) :
  0 <= nextId ->
  all_digits_string (DataManager.format_like lastStudentId nextId) = true /\
  nextId <= numeral_value (DataManager.format_like lastStudentId nextId).
Proof.
  intros Hn. pose proof (numeral_all_digits nextId Hn) as Hd.
  pose proof (numeral_value_numeral nextId Hn) as Hv.
  unfold DataManager.format_like, padStart0.
  destruct (is_seven_digits lastStudentId).
  - destruct (repeat_zero_digits (7 - String.length (Z_to_string nextId))
                _ Hd) as [Ha Hb].
    split; [done|]. rewrite Hb, Hv. lia.
  - destruct (includes "2024" lastStudentId).
    + destruct (repeat_zero_digits (3 - String.length (Z_to_string nextId))
                  _ Hd) as [Ha Hb].
      destruct (prefix_2024_digits _ Ha) as [Hc He].
      split; [done|]. rewrite Hb, Hv in He. done.
    + destruct (repeat_zero_digits (4 - String.length (Z_to_string nextId))
                  _ Hd) as [Ha Hb].
      split; [done|]. rewrite Hb, Hv. lia.
Qed.

(** A student whose identifier loosely equals a string of digits has the
    value of that string as numeric suffix. *)
Lemma suffix_of_matching_id (student : obj) (digits : string) :
  all_digits_string digits = true ->
  2 <= numeral_value digits ->
  DataManager.id_is (VStr digits) student = true ->
  DataManager.numeric_suffix student = numeral_value digits.
Proof.
  intros Hd Hv. unfold DataManager.id_is, DataManager.numeric_suffix.
  destruct (prop student "id") as [| |b|z| |s]; simpl; try done.
  - rewrite (str_to_number_all_digits _ Hd).
    destruct b; intros H; apply Z.eqb_eq in H; lia.
  - rewrite (str_to_number_all_digits _ Hd).
    intros H. apply Z.eqb_eq in H. subst z.
    assert (0 <= numeral_value digits) as Hpos by lia.
    rewrite (trailing_digits_all _ (numeral_all_digits _ Hpos)).
    by rewrite parse_int_string_numeral.
  - intros H. apply String.eqb_eq in H. subst s.
    rewrite (trailing_digits_all _ Hd).
    by rewrite (parse_all_digits _ Hd).
Qed.

(** X21.  The identifier that [generateNextAvailableId] suggests is free:
    no active student answers to it.  (Numeric suffixes are taken below
    2^53, where the engine's numbers are the integers.) *)
Theorem suggested_id_is_free (st : DataManager.t) :
  (forall s, s ∈ DataManager.students st ->
     DataManager.numeric_suffix s < 2 ^ 53) ->
  DataManager.getStudentById st
    (VStr (DataManager.generateNextAvailableId st)) = None.
Proof.
  intros _. unfold DataManager.getStudentById.
  apply find_None_indexed, find_indexed_None. intros s Hs.
  destruct (DataManager.id_is _ s) eqn:Hhit; [exfalso|done].
  revert Hhit. unfold DataManager.generateNextAvailableId.
  destruct (last (DataManager.students st)) as [lastStudent|] eqn:Hlast.
  2:{ apply last_None in Hlast. rewrite Hlast in Hs. by inversion Hs. }
  destruct (List.filter _ _) as [|n ns] eqn:Hfilter.
  - intros Hhit.
    pose proof (no_positive_suffix _ Hfilter s Hs) as Hle.
    rewrite (suffix_of_matching_id s "2024001") in Hle; [|done|done|done].
    vm_compute in Hle. by apply Hle.
  - intros Hhit.
    destruct (positive_suffixes_max _ _ _ Hfilter) as (Hpos & _ & Hub).
    set (m := DataManager.max_list n ns) in *.
    destruct (format_like_digits (to_string (prop lastStudent "id")) (m + 1))
      as [Hd Hv]; [lia|].
    pose proof (Hub s Hs) as Hle.
    rewrite (suffix_of_matching_id s _ Hd) in Hle; [lia|lia|done].
Qed.

Lemma suggested_id_is_free_witness :
  DataManager.getStudentById Sample.roster_logged
    (VStr (DataManager.generateNextAvailableId Sample.roster_logged)) = None.
Proof.
  apply suggested_id_is_free. intros s Hs.
  assert (DataManager.students Sample.roster_logged
          = [DataManager.new_student Sample.monday Sample.ahmed]) as Heq
    by reflexivity.
  rewrite Heq in Hs. apply list_elem_of_singleton in Hs. subst s.
  vm_compute. reflexivity.
Defined.

(** ** Searching students *)

Lemma lower_char_facts (c : ascii) :
  lower_char (lower_char c) = lower_char c /\
  is_space (lower_char c) = is_space c.
Proof. destruct c as [[] [] [] [] [] [] [] []]; vm_compute; done. Qed.

Lemma toLowerCase_idempotent (s : string) :
  toLowerCase (toLowerCase s) = toLowerCase s.
Proof.
  induction s as [|c s IH]; simpl; [done|].
  by rewrite IH, (proj1 (lower_char_facts c)).
Qed.

Lemma toLowerCase_rev (acc s : string) :
  rev_string (toLowerCase acc) (toLowerCase s)
    = toLowerCase (rev_string acc s).
Proof.
  revert acc. induction s as [|c s IH]; intros acc; simpl; [done|].
  apply (IH (String c acc)).
Qed.

Lemma toLowerCase_trim_left (s : string) :
  trim_left (toLowerCase s) = toLowerCase (trim_left s).
Proof.
  induction s as [|c s IH]; simpl; [done|].
  rewrite (proj2 (lower_char_facts c)). by destruct (is_space c).
Qed.

Lemma toLowerCase_trim (s : string) :
  trim (toLowerCase s) = toLowerCase (trim s).
Proof.
  unfold trim, trim_right.
  rewrite toLowerCase_trim_left.
  rewrite (toLowerCase_rev EmptyString), toLowerCase_trim_left.
  apply (toLowerCase_rev EmptyString).
Qed.

Lemma toLowerCase_empty (s : string) :
  String.eqb (toLowerCase s) EmptyString = String.eqb s EmptyString.
Proof. by destruct s. Qed.

Lemma toLowerCase_append (a b : string) :
  toLowerCase (a +:+ b) = toLowerCase a +:+ toLowerCase b.
Proof.
  induction a as [|c a IH]; [done|].
  change (String c a +:+ b) with (String c (a +:+ b)). simpl.
  rewrite IH. done.
Qed.

Lemma prefix_of_append (t b : string) : String.prefix t (t +:+ b) = true.
Proof.
  induction t as [|c t IH]; [by destruct b|].
  change (String c t +:+ b) with (String c (t +:+ b)). simpl.
  by destruct (ascii_dec c c).
Qed.

Lemma includes_unfold (t s : string) :
  includes t s
    = String.prefix t s
      || match s with
         | EmptyString => false
         | String _ rest => includes t rest
         end.
Proof. by destruct s. Qed.

Lemma includes_cons (t : string) (c : ascii) (s : string) :
  includes t (String c s) = String.prefix t (String c s) || includes t s.
Proof. done. Qed.

Lemma includes_middle (t a b : string) :
  includes t (a +:+ t +:+ b) = true.
Proof.
  induction a as [|c a IH].
  - change (EmptyString +:+ t +:+ b) with (t +:+ b).
    rewrite includes_unfold, prefix_of_append. done.
  - change (String c a +:+ t +:+ b) with (String c (a +:+ t +:+ b)).
    rewrite includes_cons, IH. apply orb_true_r.
Qed.

(** X22.  The search does not look at the case of the search term: a term
    and its lower-case form select the same students (letters of the
    ASCII range). *)
Theorem search_ignores_case_of_term (st : DataManager.t) (term : string) :
  DataManager.searchStudents st (toLowerCase term)
    = DataManager.searchStudents st term.
Proof.
  unfold DataManager.searchStudents.
  rewrite toLowerCase_trim, !toLowerCase_empty, toLowerCase_idempotent.
  done.
Qed.


